(** * The console operator's sync loop (pkg/console/operator/sync_v400.go)

    A shallow embedding of [sync_v400], its six resource steps,
    [secretAndOauthMatch] and [setStatus], together with the properties
    of the reconciliation pass.

    Conventions of the embedding.
    - A Go pointer to a Kubernetes resource ([*routev1.Route],
      [*corev1.Secret], ...) is an [option]: [None] is [nil].  These
      objects are fetched or built inside one step and handed on by
      value, so no aliasing is involved.
    - [consoleConfig *v1alpha1.Console] is shared with the caller of the
      pass, so it is an address into a heap of [Console] objects that is
      part of the state.
    - A Go [error] is an [option error]: [None] is the nil error.
    - Every request to the backend goes through [call], which runs the
      client operation on the backend state and appends a [Call] record
      to the trace of the pass.
    - A nil-pointer dereference is the outcome [Panics].
    - [logrus] output is not part of the state. *)

From stdpp Require Import base option list sorting strings gmap.
From Stdlib Require Import ZArith.

Local Open Scope string_scope.

(** ** Resource types: the fields the sync loop reads, and enough content
    to tell two objects apart. *)

Module metav1.
Record ObjectMeta : Type := mkObjectMeta {
  Name : string;
  ResourceVersion : string;
  Annotations : gmap string string
}.
End metav1.

Module routev1.
Record RouteSpec : Type := mkRouteSpec { Host : string }.
Record Route : Type := mkRoute {
  ObjectMeta : metav1.ObjectMeta;
  Spec : RouteSpec
}.
End routev1.

Module corev1.
Record Service : Type := mkService {
  svc_ObjectMeta : metav1.ObjectMeta;
  svc_Port : Z
}.
Record ConfigMap : Type := mkConfigMap {
  cm_ObjectMeta : metav1.ObjectMeta;
  cm_Data : gmap string string
}.
Record Secret : Type := mkSecret {
  sec_ObjectMeta : metav1.ObjectMeta;
  sec_Data : gmap string string
}.
End corev1.

Module oauthv1.
Record OAuthClient : Type := mkOAuthClient {
  ObjectMeta : metav1.ObjectMeta;
  Secret : string;
  RedirectURIs : list string
}.
End oauthv1.

Module appsv1.
Record Deployment : Type := mkDeployment {
  ObjectMeta : metav1.ObjectMeta;
  Replicas : Z
}.
End appsv1.

Module operatorv1alpha1.
Record VersionAvailability : Type := mkVersionAvailability {
  Version : string
}.
End operatorv1alpha1.

Module v1alpha1.
Record ConsoleSpec : Type := mkConsoleSpec {
  Version : string;
  Count : Z
}.
Record ConsoleStatus : Type := mkConsoleStatus {
  DefaultHostName : string;
  OAuthSecret : string
}.
Record Console : Type := mkConsole {
  ObjectMeta : metav1.ObjectMeta;
  Spec : ConsoleSpec;
  Status : ConsoleStatus
}.
End v1alpha1.

(** ** Errors *)

(** The two shapes of error value the sync loop meets: a status error of
    the API machinery, which carries a reason, and the plain string
    errors built by [errors.New] and [fmt.Errorf]. *)
Inductive error : Type :=
  | StatusError (reason : string) (message : string)
  | errorString (s : string).

Definition StatusReasonNotFound : string := "NotFound".

(** [err.Error()] *)
Definition Error (e : error) : string :=
  match e with
  | StatusError _ m => m
  | errorString s => s
  end.

(** [apierrors.IsNotFound]: false on the nil error and on anything that
    is not a status error with reason NotFound. *)
Definition IsNotFound (err : option error) : bool :=
  match err with
  | Some (StatusError r _) => bool_decide (r = StatusReasonNotFound)
  | _ => false
  end.

(** [err != nil] *)
Definition not_nil {A : Type} (p : option A) : bool :=
  match p with Some _ => true | None => false end.

Definition errors_New (s : string) : option error := Some (errorString s).

(** The verb [%v] applied to an error value. *)
Definition fmt_v (err : option error) : string :=
  match err with
  | Some e => Error e
  | None => "<nil>"
  end.

(** [fmt.Errorf(prefix + "%v", err)] *)
Definition fmt_Errorf (prefix : string) (err : option error) : option error :=
  Some (errorString (prefix ++ fmt_v err)).

(** ** The steps of a pass and the requests they send *)

Inductive Step : Type :=
  | StepRoute | StepService | StepConfigMap
  | StepSecret | StepOAuthClient | StepDeployment.

(** Position of a step in the pass. *)
Definition step_index (st : Step) : nat :=
  match st with
  | StepRoute => 1
  | StepService => 2
  | StepConfigMap => 3
  | StepSecret => 4
  | StepOAuthClient => 5
  | StepDeployment => 6
  end.

(** One record per request sent to a collaborator, with its arguments. *)
Inductive Call : Type :=
  | RouteGetOrCreate (required : routev1.Route)
  | ServiceApply (required : corev1.Service)
  | ConfigMapApply (required : corev1.ConfigMap)
  | SecretGet (namespace name : string)
  | RandomSecretString
  | SecretApply (required : corev1.Secret)
  | OAuthClientGet (name : string)
  | OAuthClientApply (client : option oauthv1.OAuthClient)
  | DeploymentGet (namespace name : string)
  | DeploymentApply (required : appsv1.Deployment) (generation : Z)
                    (forceRollout : bool).

(** The step a request belongs to. *)
Definition step_of (c : Call) : Step :=
  match c with
  | RouteGetOrCreate _ => StepRoute
  | ServiceApply _ => StepService
  | ConfigMapApply _ => StepConfigMap
  | SecretGet _ _ | RandomSecretString | SecretApply _ => StepSecret
  | OAuthClientGet _ | OAuthClientApply _ => StepOAuthClient
  | DeploymentGet _ _ | DeploymentApply _ _ _ => StepDeployment
  end.

(** ** State and the monad of a pass *)

Definition addr : Type := positive.

Inductive outcome (A : Type) : Type :=
  | Returns (a : A)
  | Panics (msg : string).
Arguments Returns {A} a.
Arguments Panics {A} msg.

Section Pass.
(** [W] is the state of the managed-resource backend. *)
Context {W : Type}.

Record St : Type := mkSt {
  heap : gmap addr v1alpha1.Console;
  backend : W;
  calls : list Call
}.

Definition M (A : Type) : Type := St → outcome A * St.

#[global] Instance M_ret : MRet M := λ A a s, (Returns a, s).

#[global] Instance M_bind : MBind M := λ A B f m s,
  match m s with
  | (Returns a, s') => f a s'
  | (Panics msg, s') => (Panics msg, s')
  end.

Definition panic {A : Type} (msg : string) : M A := λ s, (Panics msg, s).

(** The object a [*v1alpha1.Console] points to; nil has none. *)
Definition load (p : addr) : M (option v1alpha1.Console) :=
  λ s, (Returns (heap s !! p), s).

(** [p.field] on a pointer: a nil pointer panics. *)
Definition deref {A : Type} (p : option A) : M A :=
  match p with
  | Some a => mret a
  | None =>
      panic "runtime error: invalid memory address or nil pointer dereference"
  end.

(** A request to a collaborator: run it on the backend, record it. *)
Definition call {A : Type} (c : Call) (op : W → A * W) : M A :=
  λ s, let '(a, w') := op (backend s) in
       (Returns a, mkSt (heap s) w' (calls s ++ [c])).

(** ** Frames: what a computation may do to the state

    [appends P s s']: [s'] has the heap of [s], and the trace of [s]
    followed by requests that all satisfy [P]. *)
Definition appends (P : Call → Prop) (s s' : St) : Prop :=
  heap s' = heap s ∧ ∃ l, calls s' = (calls s ++ l)%list ∧ Forall P l.

(** A computation all of whose runs stay within [P]. *)
Definition frames {A} (P : Call → Prop) (m : M A) : Prop :=
  ∀ s, appends P s (m s).2.

(** ** The clients held by the operator

    A client stands for the requests the sync loop sends through it,
    directly ([Get]) or through the library function it is handed to
    ([routesub.GetOrCreate], [resourceapply.Apply...],
    [oauthsub.ApplyOAuth]).  Each is an arbitrary function of the
    backend state. *)

Record RouteClient : Type := {
  GetOrCreate :
    routev1.Route → W → (option routev1.Route * bool * option error) * W
}.

Record ServiceClient : Type := {
  ApplyService :
    corev1.Service → W → (option corev1.Service * bool * option error) * W
}.

Record ConfigMapClient : Type := {
  ApplyConfigMap :
    corev1.ConfigMap → W →
    (option corev1.ConfigMap * bool * option error) * W
}.

Record SecretsClient : Type := {
  Secrets_Get :
    string → string → W → (option corev1.Secret * option error) * W;
  ApplySecret :
    corev1.Secret → W → (option corev1.Secret * bool * option error) * W
}.

Record OAuthClientsClient : Type := {
  OAuthClients_Get :
    string → W → (option oauthv1.OAuthClient * option error) * W;
  ApplyOAuth :
    option oauthv1.OAuthClient → W →
    (option oauthv1.OAuthClient * bool * option error) * W
}.

Record DeploymentsClient : Type := {
  Deployments_Get :
    string → string → W → (option appsv1.Deployment * option error) * W;
  ApplyDeployment :
    appsv1.Deployment → Z → bool → W →
    (option appsv1.Deployment * bool * option error) * W
}.

Record ConsoleOperator : Type := {
  routeClient : RouteClient;
  serviceClient : ServiceClient;
  configMapClient : ConfigMapClient;
  secretsClient : SecretsClient;
  oauthClient : OAuthClientsClient;
  deploymentClient : DeploymentsClient;
  (** [crypto.Random256BitsString] *)
  Random256BitsString : W → string * W
}.

(** ** The subresource packages

    The builders and readers of pkg/console/subresource, of
    pkg/controller and of resourcemerge are functions of their
    arguments; a [*v1alpha1.Console] argument is seen through its
    pointee.  They are parameters of the development. *)
Record Subresources : Type := {
  controller_TargetNamespace : string;
  routesub_DefaultRoute : option v1alpha1.Console → routev1.Route;
  servicesub_DefaultService : option v1alpha1.Console → corev1.Service;
  configmapsub_DefaultConfigMap :
    option v1alpha1.Console → option routev1.Route → corev1.ConfigMap;
  secretsub_Stub_Name : string;
  secretsub_GetSecretString : option corev1.Secret → string;
  secretsub_DefaultSecret :
    option v1alpha1.Console → string → corev1.Secret;
  oauthsub_Stub_Name : string;
  oauthsub_GetSecretString : option oauthv1.OAuthClient → string;
  (** the client object after the registration has been written into it *)
  oauthsub_RegisterConsoleToOAuthClient :
    option oauthv1.OAuthClient → option routev1.Route → string →
    option oauthv1.OAuthClient;
  deploymentsub_Stub_Name : string;
  deploymentsub_DefaultDeployment :
    option v1alpha1.Console → option corev1.ConfigMap →
    option corev1.Secret → appsv1.Deployment;
  deploymentsub_ResourceVersionsChanged :
    option appsv1.Deployment → option corev1.ConfigMap →
    option corev1.Secret → bool;
  deploymentsub_UpdateResourceVersions :
    option appsv1.Deployment → option corev1.ConfigMap →
    option corev1.Secret → appsv1.Deployment;
  resourcemerge_ExpectedDeploymentGeneration :
    appsv1.Deployment → operatorv1alpha1.VersionAvailability → Z
}.

Context (sub : Subresources).

(** ** The six steps *)

Definition SyncRoute (co : ConsoleOperator) (consoleConfig : addr)
  : M (option routev1.Route * bool * option error) :=
  cfg ← load consoleConfig;
  '(rt, rtIsNew, rtErr) ←
    call (RouteGetOrCreate (routesub_DefaultRoute sub cfg))
         (GetOrCreate (routeClient co) (routesub_DefaultRoute sub cfg));
  if not_nil rtErr then mret (None, false, rtErr) else
  r ← deref rt;
  if (String.length (routev1.Host (routev1.Spec r)) =? 0)%nat then
    mret (None, false, errors_New "Waiting on Route.Spec.Host")
  else
    mret (rt, rtIsNew, rtErr).

Definition SyncService (co : ConsoleOperator) (consoleConfig : addr)
  : M (option corev1.Service * bool * option error) :=
  cfg ← load consoleConfig;
  '(svc, svcChanged, svcErr) ←
    call (ServiceApply (servicesub_DefaultService sub cfg))
         (ApplyService (serviceClient co) (servicesub_DefaultService sub cfg));
  if not_nil svcErr then mret (None, false, svcErr) else
  mret (svc, svcChanged, svcErr).

Definition SyncConfigMap (co : ConsoleOperator) (consoleConfig : addr)
    (rt : option routev1.Route)
  : M (option corev1.ConfigMap * bool * option error) :=
  cfg ← load consoleConfig;
  '(cm, cmChanged, cmErr) ←
    call (ConfigMapApply (configmapsub_DefaultConfigMap sub cfg rt))
         (ApplyConfigMap (configMapClient co)
            (configmapsub_DefaultConfigMap sub cfg rt));
  if not_nil cmErr then mret (None, false, cmErr) else
  mret (cm, cmChanged, cmErr).

Definition SyncSecret (co : ConsoleOperator) (consoleConfig : addr)
  : M (option corev1.Secret * bool * option error) :=
  '(secret, err) ←
    call (SecretGet (controller_TargetNamespace sub) (secretsub_Stub_Name sub))
         (Secrets_Get (secretsClient co)
            (controller_TargetNamespace sub) (secretsub_Stub_Name sub));
  if IsNotFound err
     || bool_decide (secretsub_GetSecretString sub secret = EmptyString) then
    random ← call RandomSecretString (Random256BitsString co);
    cfg ← load consoleConfig;
    '(_, secChanged, secErr) ←
      call (SecretApply (secretsub_DefaultSecret sub cfg random))
           (ApplySecret (secretsClient co)
              (secretsub_DefaultSecret sub cfg random));
    mret (None, secChanged,
          fmt_Errorf "secret not found, creating new secret, create error = "
                     secErr)
  else
  if not_nil err then mret (None, false, err) else
  mret (secret, false, None).

Definition SyncOAuthClient (co : ConsoleOperator) (consoleConfig : addr)
    (sec : option corev1.Secret) (rt : option routev1.Route)
  : M (option oauthv1.OAuthClient * bool * option error) :=
  '(oauthClient0, err) ←
    call (OAuthClientGet (oauthsub_Stub_Name sub))
         (OAuthClients_Get (oauthClient co) (oauthsub_Stub_Name sub));
  if not_nil err then
    mret (None, false, errors_New "oauth client for console does not exist.")
  else
  let oauthClient1 :=
    oauthsub_RegisterConsoleToOAuthClient sub oauthClient0 rt
      (secretsub_GetSecretString sub sec) in
  '(oauthClient2, oauthChanged, oauthErr) ←
    call (OAuthClientApply oauthClient1)
         (ApplyOAuth (oauthClient co) oauthClient1);
  if not_nil oauthErr then mret (None, false, oauthErr) else
  mret (oauthClient2, oauthChanged, None).

Definition SyncDeployment (co : ConsoleOperator) (consoleConfig : addr)
    (cm : option corev1.ConfigMap) (sec : option corev1.Secret)
  : M (option appsv1.Deployment * bool * option error) :=
  cfg ← load consoleConfig;
  let defaultDeployment := deploymentsub_DefaultDeployment sub cfg cm sec in
  console ← deref cfg;
  let versionAvailability :=
    operatorv1alpha1.mkVersionAvailability
      (v1alpha1.Version (v1alpha1.Spec console)) in
  let deploymentGeneration :=
    resourcemerge_ExpectedDeploymentGeneration sub
      defaultDeployment versionAvailability in
  '(existingDeployment, getDepErr) ←
    call (DeploymentGet (controller_TargetNamespace sub)
            (deploymentsub_Stub_Name sub))
         (Deployments_Get (deploymentClient co)
            (controller_TargetNamespace sub) (deploymentsub_Stub_Name sub));
  if IsNotFound getDepErr then
    '(_, depCreated, createdErr) ←
      call (DeploymentApply defaultDeployment deploymentGeneration true)
           (ApplyDeployment (deploymentClient co)
              defaultDeployment deploymentGeneration true);
    mret (None, depCreated,
          fmt_Errorf
            "deployment not found, creating new deployment, create error = "
            createdErr)
  else
  if not_nil getDepErr then mret (None, false, getDepErr) else
  if deploymentsub_ResourceVersionsChanged sub existingDeployment cm sec then
    let toUpdate :=
      deploymentsub_UpdateResourceVersions sub existingDeployment cm sec in
    '(updatedDeployment, depChanged, updateErr) ←
      call (DeploymentApply toUpdate deploymentGeneration true)
           (ApplyDeployment (deploymentClient co)
              toUpdate deploymentGeneration true);
    if not_nil updateErr then mret (None, false, updateErr) else
    mret (updatedDeployment, depChanged, None)
  else
  mret (existingDeployment, false, None).

(** ** The pass *)

Definition sync_v400 (co : ConsoleOperator) (consoleConfig : addr)
  : M (addr * bool * option error) :=
  let toUpdate := false in
  '(rt, rtChanged, rtErr) ← SyncRoute co consoleConfig;
  if not_nil rtErr then mret (consoleConfig, toUpdate, rtErr) else
  let toUpdate := toUpdate || rtChanged in
  '(_, svcChanged, svcErr) ← SyncService co consoleConfig;
  if not_nil svcErr then mret (consoleConfig, toUpdate, svcErr) else
  let toUpdate := toUpdate || svcChanged in
  '(cm, cmChanged, cmErr) ← SyncConfigMap co consoleConfig rt;
  if not_nil cmErr then mret (consoleConfig, toUpdate, cmErr) else
  let toUpdate := toUpdate || cmChanged in
  '(sec, secChanged, secErr) ← SyncSecret co consoleConfig;
  if not_nil secErr then mret (consoleConfig, toUpdate, secErr) else
  let toUpdate := toUpdate || secChanged in
  '(_, oauthChanged, oauthErr) ← SyncOAuthClient co consoleConfig sec rt;
  if not_nil oauthErr then mret (consoleConfig, toUpdate, oauthErr) else
  let toUpdate := toUpdate || oauthChanged in
  '(_, depChanged, depErr) ← SyncDeployment co consoleConfig cm sec;
  if not_nil depErr then mret (consoleConfig, toUpdate, depErr) else
  let toUpdate := toUpdate || depChanged in
  (* the status update under [if toUpdate] is a TODO: nothing runs *)
  mret (consoleConfig, toUpdate, None).

(** ** Consistency check and status *)

Definition secretAndOauthMatch (secret : option corev1.Secret)
    (client : option oauthv1.OAuthClient) : bool :=
  let secretString := secretsub_GetSecretString sub secret in
  let clientSecretString := oauthsub_GetSecretString sub client in
  bool_decide (secretString = clientSecretString).

(** The body of [setStatus], returning the value its parameter [cs]
    holds when the body ends.  [cs] is a struct passed by value: the
    assignments write the callee's copy. *)
Definition setStatus_body (cs : v1alpha1.ConsoleStatus)
    (svc : option corev1.Service) (rt : option routev1.Route)
    (cm : option corev1.ConfigMap) (dep : option appsv1.Deployment)
    (oa : option oauthv1.OAuthClient) (sec : option corev1.Secret)
  : M v1alpha1.ConsoleStatus :=
  r ← deref rt;
  let cs :=
    if bool_decide (routev1.Host (routev1.Spec r) ≠ EmptyString) then
      v1alpha1.mkConsoleStatus (routev1.Host (routev1.Spec r))
                               (v1alpha1.OAuthSecret cs)
    else
      v1alpha1.mkConsoleStatus EmptyString (v1alpha1.OAuthSecret cs) in
  let cs :=
    if secretAndOauthMatch sec oa then
      v1alpha1.mkConsoleStatus (v1alpha1.DefaultHostName cs) "valid"
    else
      v1alpha1.mkConsoleStatus (v1alpha1.DefaultHostName cs) "mismatch" in
  mret cs.

(** [setStatus] has no result: the copy is dropped on return. *)
Definition setStatus (cs : v1alpha1.ConsoleStatus)
    (svc : option corev1.Service) (rt : option routev1.Route)
    (cm : option corev1.ConfigMap) (dep : option appsv1.Deployment)
    (oa : option oauthv1.OAuthClient) (sec : option corev1.Secret)
  : M unit :=
  _ ← setStatus_body cs svc rt cm dep oa sec;
  mret tt.

(** ** The pass, step by step

    What a step hands to the steps after it. *)
Record Outputs : Type := mkOutputs {
  out_rt : option routev1.Route;
  out_cm : option corev1.ConfigMap;
  out_sec : option corev1.Secret
}.

Definition no_outputs : Outputs := mkOutputs None None None.

(** The call [sync_v400] makes for a step, with the arguments it takes
    from the earlier steps. *)
Definition run_step (co : ConsoleOperator) (consoleConfig : addr)
    (st : Step) (o : Outputs) : M (Outputs * bool * option error) :=
  match st with
  | StepRoute =>
      '(rt, changed, err) ← SyncRoute co consoleConfig;
      mret (mkOutputs rt (out_cm o) (out_sec o), changed, err)
  | StepService =>
      '(_, changed, err) ← SyncService co consoleConfig;
      mret (o, changed, err)
  | StepConfigMap =>
      '(cm, changed, err) ← SyncConfigMap co consoleConfig (out_rt o);
      mret (mkOutputs (out_rt o) cm (out_sec o), changed, err)
  | StepSecret =>
      '(sec, changed, err) ← SyncSecret co consoleConfig;
      mret (mkOutputs (out_rt o) (out_cm o) sec, changed, err)
  | StepOAuthClient =>
      '(_, changed, err) ←
        SyncOAuthClient co consoleConfig (out_sec o) (out_rt o);
      mret (o, changed, err)
  | StepDeployment =>
      '(_, changed, err) ←
        SyncDeployment co consoleConfig (out_cm o) (out_sec o);
      mret (o, changed, err)
  end.

Definition all_steps : list Step :=
  [StepRoute; StepService; StepConfigMap;
   StepSecret; StepOAuthClient; StepDeployment].

(** The steps from [st] to the end of the pass. *)
Definition steps_from (st : Step) : list Step :=
  drop (pred (step_index st)) all_steps.

(** The remainder of [sync_v400] once the steps before [sts] are done. *)
Fixpoint run_from (co : ConsoleOperator) (consoleConfig : addr)
    (sts : list Step) (o : Outputs) (toUpdate : bool)
  : M (addr * bool * option error) :=
  match sts with
  | [] => mret (consoleConfig, toUpdate, None)
  | st :: rest =>
      '(o', changed, err) ← run_step co consoleConfig st o;
      if not_nil err then mret (consoleConfig, toUpdate, err) else
      run_from co consoleConfig rest o' (toUpdate || changed)
  end.

(** [Reaches co c s0 st o acc s]: started in [s0], the pass arrives at
    step [st] with outputs [o], accumulated flag [acc] and state [s],
    every earlier step having returned a nil error. *)
Inductive Reaches (co : ConsoleOperator) (consoleConfig : addr) (s0 : St)
  : Step → Outputs → bool → St → Prop :=
  | reaches_first :
      Reaches co consoleConfig s0 StepRoute no_outputs false s0
  | reaches_next st st' o acc s o' changed s' :
      Reaches co consoleConfig s0 st o acc s →
      run_step co consoleConfig st o s = (Returns (o', changed, None), s') →
      step_index st' = S (step_index st) →
      Reaches co consoleConfig s0 st' o' (acc || changed) s'.

(** [Failure co c st o s e r]: run in state [s] with the outputs [o]
    of the earlier steps, step [st] sends a request that fails with
    error [e], on one of the following paths of the step, and [r] is
    the error value the step returns on that path. *)
Inductive Failure (co : ConsoleOperator) (consoleConfig : addr)
  : Step → Outputs → St → error → option error → Prop :=
  | fail_route_get o s rt isNew e w1 :
      GetOrCreate (routeClient co)
        (routesub_DefaultRoute sub (heap s !! consoleConfig)) (backend s)
        = ((rt, isNew, Some e), w1) →
      Failure co consoleConfig StepRoute o s e (Some e)
  | fail_service_apply o s svc changed e w1 :
      ApplyService (serviceClient co)
        (servicesub_DefaultService sub (heap s !! consoleConfig)) (backend s)
        = ((svc, changed, Some e), w1) →
      Failure co consoleConfig StepService o s e (Some e)
  | fail_configmap_apply o s cm changed e w1 :
      ApplyConfigMap (configMapClient co)
        (configmapsub_DefaultConfigMap sub (heap s !! consoleConfig)
           (out_rt o)) (backend s)
        = ((cm, changed, Some e), w1) →
      Failure co consoleConfig StepConfigMap o s e (Some e)
  | fail_secret_get o s secret e w1 :
      Secrets_Get (secretsClient co) (controller_TargetNamespace sub)
        (secretsub_Stub_Name sub) (backend s) = ((secret, Some e), w1) →
      IsNotFound (Some e) = false →
      secretsub_GetSecretString sub secret ≠ EmptyString →
      Failure co consoleConfig StepSecret o s e (Some e)
  | fail_secret_create o s secret err w1 random w2 x changed e w3 :
      Secrets_Get (secretsClient co) (controller_TargetNamespace sub)
        (secretsub_Stub_Name sub) (backend s) = ((secret, err), w1) →
      IsNotFound err
      || bool_decide (secretsub_GetSecretString sub secret = EmptyString) = true →
      Random256BitsString co w1 = (random, w2) →
      ApplySecret (secretsClient co)
        (secretsub_DefaultSecret sub (heap s !! consoleConfig) random) w2
        = ((x, changed, Some e), w3) →
      Failure co consoleConfig StepSecret o s e
        (fmt_Errorf "secret not found, creating new secret, create error = "
                    (Some e))
  | fail_oauth_get o s client e w1 :
      OAuthClients_Get (oauthClient co) (oauthsub_Stub_Name sub) (backend s)
        = ((client, Some e), w1) →
      Failure co consoleConfig StepOAuthClient o s e
        (errors_New "oauth client for console does not exist.")
  | fail_oauth_apply o s client w1 x changed e w2 :
      OAuthClients_Get (oauthClient co) (oauthsub_Stub_Name sub) (backend s)
        = ((client, None), w1) →
      ApplyOAuth (oauthClient co)
        (oauthsub_RegisterConsoleToOAuthClient sub client (out_rt o)
           (secretsub_GetSecretString sub (out_sec o))) w1
        = ((x, changed, Some e), w2) →
      Failure co consoleConfig StepOAuthClient o s e (Some e)
  | fail_deployment_get o s console existing e w1 :
      heap s !! consoleConfig = Some console →
      Deployments_Get (deploymentClient co) (controller_TargetNamespace sub)
        (deploymentsub_Stub_Name sub) (backend s)
        = ((existing, Some e), w1) →
      IsNotFound (Some e) = false →
      Failure co consoleConfig StepDeployment o s e (Some e)
  | fail_deployment_create o s console existing err w1 x changed e w2 :
      heap s !! consoleConfig = Some console →
      Deployments_Get (deploymentClient co) (controller_TargetNamespace sub)
        (deploymentsub_Stub_Name sub) (backend s)
        = ((existing, err), w1) →
      IsNotFound err = true →
      ApplyDeployment (deploymentClient co)
        (deploymentsub_DefaultDeployment sub (Some console)
           (out_cm o) (out_sec o))
        (resourcemerge_ExpectedDeploymentGeneration sub
           (deploymentsub_DefaultDeployment sub (Some console)
              (out_cm o) (out_sec o))
           (operatorv1alpha1.mkVersionAvailability
              (v1alpha1.Version (v1alpha1.Spec console))))
        true w1
        = ((x, changed, Some e), w2) →
      Failure co consoleConfig StepDeployment o s e
        (fmt_Errorf
           "deployment not found, creating new deployment, create error = "
           (Some e))
  | fail_deployment_update o s console existing w1 x changed e w2 :
      heap s !! consoleConfig = Some console →
      Deployments_Get (deploymentClient co) (controller_TargetNamespace sub)
        (deploymentsub_Stub_Name sub) (backend s)
        = ((existing, None), w1) →
      deploymentsub_ResourceVersionsChanged sub existing
        (out_cm o) (out_sec o) = true →
      ApplyDeployment (deploymentClient co)
        (deploymentsub_UpdateResourceVersions sub existing
           (out_cm o) (out_sec o))
        (resourcemerge_ExpectedDeploymentGeneration sub
           (deploymentsub_DefaultDeployment sub (Some console)
              (out_cm o) (out_sec o))
           (operatorv1alpha1.mkVersionAvailability
              (v1alpha1.Version (v1alpha1.Spec console))))
        true w1
        = ((x, changed, Some e), w2) →
      Failure co consoleConfig StepDeployment o s e (Some e).

(** ** Budgets of requests

    The most requests a step sends in one run: one for the route, the
    service and the config map; get, random source and apply for the
    secret; get and apply for the oauth client and the deployment. *)
Definition step_budget (st : Step) : nat :=
  match st with
  | StepRoute | StepService | StepConfigMap => 1
  | StepSecret => 3
  | StepOAuthClient | StepDeployment => 2
  end.

(** The most requests a step sends in a run that returns a nil error:
    the secret step then has sent its get only. *)
Definition step_budget_ok (st : Step) : nat :=
  match st with
  | StepSecret => 1
  | _ => step_budget st
  end.

(** The most requests the steps [sts] send when run in order: a step
    either ends the pass or returns a nil error and lets the rest run. *)
Fixpoint pass_budget (sts : list Step) : nat :=
  match sts with
  | [] => 0
  | st :: rest => step_budget st `max` (step_budget_ok st + pass_budget rest)
  end.

(** Order of two requests by the position of their steps in the pass. *)
Definition step_le (x y : Call) : Prop :=
  (step_index (step_of x) <= step_index (step_of y))%nat.

(** A result that does not hold a resource together with an error. *)
Definition resource_xor_error {A : Type}
    (r : outcome (option A * bool * option error)) : Prop :=
  match r with
  | Returns (Some _, _, Some _) => False
  | _ => True
  end.

(** A result that does not report a change together with an error. *)
Definition unchanged_on_error {A : Type}
    (r : outcome (option A * bool * option error)) : Prop :=
  match r with
  | Returns (_, true, Some _) => False
  | _ => True
  end.

(** A result whose error, if any, is not a not-found error. *)
Definition never_not_found {A : Type}
    (r : outcome (option A * bool * option error)) : Prop :=
  match r with
  | Returns (_, _, err) => IsNotFound err = false
  | Panics _ => True
  end.

End Pass.

Arguments St W : clear implicits.
Arguments M W A : clear implicits.
Arguments RouteClient W : clear implicits.
Arguments ServiceClient W : clear implicits.
Arguments ConfigMapClient W : clear implicits.
Arguments SecretsClient W : clear implicits.
Arguments OAuthClientsClient W : clear implicits.
Arguments DeploymentsClient W : clear implicits.
Arguments ConsoleOperator W : clear implicits.

(** ** An in-memory backend

    A test double for the clients and the subresource packages: one slot
    per resource kind, an optional injected failure, and a counter that
    stands for the random source.  It is used to run the pass on concrete
    inputs. *)
Module Fake.

Inductive Op : Type :=
  | OpRouteGetOrCreate | OpServiceApply | OpConfigMapApply
  | OpSecretGet | OpSecretApply | OpOAuthClientGet | OpOAuthClientApply
  | OpDeploymentGet | OpDeploymentApply.

#[global] Instance Op_eq_dec : EqDecision Op.
Proof. solve_decision. Defined.

#[global] Instance ObjectMeta_eq_dec : EqDecision metav1.ObjectMeta.
Proof. solve_decision. Defined.
#[global] Instance RouteSpec_eq_dec : EqDecision routev1.RouteSpec.
Proof. solve_decision. Defined.
#[global] Instance Route_eq_dec : EqDecision routev1.Route.
Proof. solve_decision. Defined.
#[global] Instance Service_eq_dec : EqDecision corev1.Service.
Proof. solve_decision. Defined.
#[global] Instance ConfigMap_eq_dec : EqDecision corev1.ConfigMap.
Proof. solve_decision. Defined.
#[global] Instance Secret_eq_dec : EqDecision corev1.Secret.
Proof. solve_decision. Defined.
#[global] Instance OAuthClient_eq_dec : EqDecision oauthv1.OAuthClient.
Proof. solve_decision. Defined.
#[global] Instance Deployment_eq_dec : EqDecision appsv1.Deployment.
Proof. solve_decision. Defined.

Record Store : Type := mkStore {
  route : option routev1.Route;
  service : option corev1.Service;
  configmap : option corev1.ConfigMap;
  secret : option corev1.Secret;
  oauthclient : option oauthv1.OAuthClient;
  deployment : option appsv1.Deployment;
  fault : option (Op * error);
  entropy : nat
}.

Definition fails (op : Op) (w : Store) : option error :=
  match fault w with
  | Some (op', e) => if bool_decide (op = op') then Some e else None
  | None => None
  end.

Definition notFound (what : string) : option error :=
  Some (StatusError StatusReasonNotFound (what ++ " not found")).

Definition meta (name : string) : metav1.ObjectMeta :=
  metav1.mkObjectMeta name "1" ∅.

(** Create when absent, replace when different, keep when equal. *)
Definition apply {A : Type} `{EqDecision A} (stored : option A)
    (required : A) : option A * bool :=
  match stored with
  | Some x =>
      if bool_decide (x = required) then (Some x, false)
      else (Some required, true)
  | None => (Some required, true)
  end.

Definition routes : RouteClient Store := {|
  GetOrCreate required w :=
    match fails OpRouteGetOrCreate w with
    | Some e => ((None, false, Some e), w)
    | None =>
        match route w with
        | Some r => ((Some r, false, None), w)
        | None =>
            ((Some required, true, None),
             mkStore (Some required) (service w) (configmap w) (secret w)
                     (oauthclient w) (deployment w) (fault w) (entropy w))
        end
    end
|}.

Definition services : ServiceClient Store := {|
  ApplyService required w :=
    match fails OpServiceApply w with
    | Some e => ((None, false, Some e), w)
    | None =>
        let '(x, changed) := apply (service w) required in
        ((x, changed, None),
         mkStore (route w) x (configmap w) (secret w)
                 (oauthclient w) (deployment w) (fault w) (entropy w))
    end
|}.

Definition configmaps : ConfigMapClient Store := {|
  ApplyConfigMap required w :=
    match fails OpConfigMapApply w with
    | Some e => ((None, false, Some e), w)
    | None =>
        let '(x, changed) := apply (configmap w) required in
        ((x, changed, None),
         mkStore (route w) (service w) x (secret w)
                 (oauthclient w) (deployment w) (fault w) (entropy w))
    end
|}.

Definition emptySecret : corev1.Secret :=
  corev1.mkSecret (metav1.mkObjectMeta EmptyString EmptyString ∅) ∅.

Definition secrets : SecretsClient Store := {|
  Secrets_Get ns name w :=
    match fails OpSecretGet w with
    | Some e => ((Some emptySecret, Some e), w)
    | None =>
        match secret w with
        | Some x => ((Some x, None), w)
        | None => ((Some emptySecret, notFound "secret"), w)
        end
    end;
  ApplySecret required w :=
    match fails OpSecretApply w with
    | Some e => ((None, false, Some e), w)
    | None =>
        let '(x, changed) := apply (secret w) required in
        ((x, changed, None),
         mkStore (route w) (service w) (configmap w) x
                 (oauthclient w) (deployment w) (fault w) (entropy w))
    end
|}.

Definition emptyOAuthClient : oauthv1.OAuthClient :=
  oauthv1.mkOAuthClient (metav1.mkObjectMeta EmptyString EmptyString ∅) EmptyString [].

Definition oauthclients : OAuthClientsClient Store := {|
  OAuthClients_Get name w :=
    match fails OpOAuthClientGet w with
    | Some e => ((Some emptyOAuthClient, Some e), w)
    | None =>
        match oauthclient w with
        | Some x => ((Some x, None), w)
        | None => ((Some emptyOAuthClient, notFound "oauthclient"), w)
        end
    end;
  ApplyOAuth client w :=
    match fails OpOAuthClientApply w, client with
    | Some e, _ => ((None, false, Some e), w)
    | None, None => ((None, false, None), w)
    | None, Some required =>
        let '(x, changed) := apply (oauthclient w) required in
        ((x, changed, None),
         mkStore (route w) (service w) (configmap w) (secret w)
                 x (deployment w) (fault w) (entropy w))
    end
|}.

Definition emptyDeployment : appsv1.Deployment :=
  appsv1.mkDeployment (metav1.mkObjectMeta EmptyString EmptyString ∅) 0.

Definition deployments : DeploymentsClient Store := {|
  Deployments_Get ns name w :=
    match fails OpDeploymentGet w with
    | Some e => ((Some emptyDeployment, Some e), w)
    | None =>
        match deployment w with
        | Some x => ((Some x, None), w)
        | None => ((Some emptyDeployment, notFound "deployment"), w)
        end
    end;
  ApplyDeployment required generation force w :=
    match fails OpDeploymentApply w with
    | Some e => ((None, false, Some e), w)
    | None =>
        let '(x, changed) := apply (deployment w) required in
        ((x, changed, None),
         mkStore (route w) (service w) (configmap w) (secret w)
                 (oauthclient w) x (fault w) (entropy w))
    end
|}.

Definition random (w : Store) : string * Store :=
  (String.concat EmptyString (replicate (S (entropy w)) "k"),
   mkStore (route w) (service w) (configmap w) (secret w)
           (oauthclient w) (deployment w) (fault w) (S (entropy w))).

Definition co : ConsoleOperator Store := {|
  routeClient := routes;
  serviceClient := services;
  configMapClient := configmaps;
  secretsClient := secrets;
  oauthClient := oauthclients;
  deploymentClient := deployments;
  Random256BitsString := random
|}.

Definition hostOf (rt : option routev1.Route) : string :=
  from_option (λ r, routev1.Host (routev1.Spec r)) EmptyString rt.

Definition secretString (sec : option corev1.Secret) : string :=
  default EmptyString (sec ≫= λ x, corev1.sec_Data x !! "clientSecret").

Definition versionOf (cm : option corev1.ConfigMap)
    (sec : option corev1.Secret) : gmap string string :=
  {[ "configmap" :=
       from_option (λ x, metav1.ResourceVersion (corev1.cm_ObjectMeta x))
                   EmptyString cm;
     "secret" :=
       from_option (λ x, metav1.ResourceVersion (corev1.sec_ObjectMeta x))
                   EmptyString sec ]}.

Definition sub : Subresources := {|
  controller_TargetNamespace := "openshift-console";
  routesub_DefaultRoute _ :=
    routev1.mkRoute (meta "console") (routev1.mkRouteSpec EmptyString);
  servicesub_DefaultService _ := corev1.mkService (meta "console") 443;
  configmapsub_DefaultConfigMap _ rt :=
    corev1.mkConfigMap (meta "console-config")
                       {[ "consoleBaseAddress" := hostOf rt ]};
  secretsub_Stub_Name := "console-oauth-config";
  secretsub_GetSecretString := secretString;
  secretsub_DefaultSecret _ random :=
    corev1.mkSecret (meta "console-oauth-config")
                    {[ "clientSecret" := random ]};
  oauthsub_Stub_Name := "console-oauth-client";
  oauthsub_GetSecretString := from_option oauthv1.Secret EmptyString;
  oauthsub_RegisterConsoleToOAuthClient client rt secretString :=
    (λ c, oauthv1.mkOAuthClient (oauthv1.ObjectMeta c) secretString
                                [hostOf rt]) <$> client;
  deploymentsub_Stub_Name := "console";
  deploymentsub_DefaultDeployment _ cm sec :=
    appsv1.mkDeployment
      (metav1.mkObjectMeta "console" "1" (versionOf cm sec)) 1;
  deploymentsub_ResourceVersionsChanged dep cm sec :=
    bool_decide
      (from_option (λ d, metav1.Annotations (appsv1.ObjectMeta d)) ∅ dep
       ≠ versionOf cm sec);
  deploymentsub_UpdateResourceVersions dep cm sec :=
    let d := default emptyDeployment dep in
    appsv1.mkDeployment
      (metav1.mkObjectMeta (metav1.Name (appsv1.ObjectMeta d))
         (metav1.ResourceVersion (appsv1.ObjectMeta d)) (versionOf cm sec))
      (appsv1.Replicas d);
  resourcemerge_ExpectedDeploymentGeneration _ _ := 0%Z
|}.

(** A desired state and a heap that holds it at address 1. *)
Definition console : v1alpha1.Console :=
  v1alpha1.mkConsole (meta "console")
                     (v1alpha1.mkConsoleSpec "4.0" 1)
                     (v1alpha1.mkConsoleStatus EmptyString EmptyString).

Definition consoleConfig : addr := 1%positive.

Definition start (w : Store) : St Store :=
  mkSt {[ consoleConfig := console ]} w [].

Definition emptyStore : Store :=
  mkStore None None None None None None None 0.

Definition theRoute : routev1.Route :=
  routev1.mkRoute (meta "console")
                  (routev1.mkRouteSpec "console.example.com").

(** Stored objects of a converged backend. *)
Definition theService : corev1.Service := servicesub_DefaultService sub None.

Definition theConfigMap : corev1.ConfigMap :=
  configmapsub_DefaultConfigMap sub None (Some theRoute).

Definition theSecret : corev1.Secret := secretsub_DefaultSecret sub None "k".

Definition theOAuthClient : oauthv1.OAuthClient :=
  oauthv1.mkOAuthClient (meta "console-oauth-client") "k"
                        ["console.example.com"].

Definition theDeployment : appsv1.Deployment :=
  deploymentsub_DefaultDeployment sub None
    (Some theConfigMap) (Some theSecret).

Definition converged : Store :=
  mkStore (Some theRoute) (Some theService) (Some theConfigMap)
          (Some theSecret) (Some theOAuthClient) (Some theDeployment)
          None 1.

(** Route, service and config map in place; the secret is missing. *)
Definition withoutSecret : Store :=
  mkStore (Some theRoute) (Some theService) (Some theConfigMap)
          None (Some theOAuthClient) None None 0.

(** A failure of the backend that is not "not found". *)
Definition timedOut : error :=
  StatusError "Timeout" "etcdserver: request timed out".

(** A converged backend whose next oauth-client get times out. *)
Definition oauthGetTimesOut : Store :=
  mkStore (Some theRoute) (Some theService) (Some theConfigMap)
          (Some theSecret) (Some theOAuthClient) (Some theDeployment)
          (Some (OpOAuthClientGet, timedOut)) 1.

Definition withoutService : Store :=
  mkStore (Some theRoute) None (Some theConfigMap)
          (Some theSecret) (Some theOAuthClient) (Some theDeployment)
          None 1.

(** A converged backend whose next deployment get times out. *)
Definition deploymentGetTimesOut : Store :=
  mkStore (Some theRoute) (Some theService) (Some theConfigMap)
          (Some theSecret) (Some theOAuthClient) (Some theDeployment)
          (Some (OpDeploymentGet, timedOut)) 1.

(** The secret is missing and the apply that creates it times out. *)
Definition secretCreateTimesOut : Store :=
  mkStore (Some theRoute) (Some theService) (Some theConfigMap)
          None (Some theOAuthClient) None
          (Some (OpSecretApply, timedOut)) 0.

(** A converged backend whose next secret get times out. *)
Definition secretGetTimesOut : Store :=
  mkStore (Some theRoute) (Some theService) (Some theConfigMap)
          (Some theSecret) (Some theOAuthClient) (Some theDeployment)
          (Some (OpSecretGet, timedOut)) 1.

(** A converged backend whose deployment carries stale version marks. *)
Definition staleDeployment : Store :=
  mkStore (Some theRoute) (Some theService) (Some theConfigMap)
          (Some theSecret) (Some theOAuthClient)
          (Some (appsv1.mkDeployment (meta "console") 1))
          None 1.

(** A state in which [consoleConfig] points to nothing. *)
Definition startNil (w : Store) : St Store := mkSt ∅ w [].

(** A route client that answers with a nil route and a nil error, and
    an operator that holds it. *)
Definition brokenRoutes : RouteClient Store := {|
  GetOrCreate _ w := ((None, false, None), w)
|}.

Definition coBrokenRoute : ConsoleOperator Store := {|
  routeClient := brokenRoutes;
  serviceClient := services;
  configMapClient := configmaps;
  secretsClient := secrets;
  oauthClient := oauthclients;
  deploymentClient := deployments;
  Random256BitsString := random
|}.

End Fake.

(** * Properties *)

Local Open Scope list_scope.
Local Open Scope nat_scope.

(** ** The monad *)

Section MonadFacts.
Context {W : Type}.
Implicit Types s : St W.

Lemma bind_returns {A B} (m : M W A) (f : A → M W B) s a s1 :
  m s = (Returns a, s1) → (m ≫= f) s = f a s1.
Proof. intros E. unfold mbind, M_bind. by rewrite E. Qed.

Lemma bind_inv {A B} (m : M W A) (f : A → M W B) s b s2 :
  (m ≫= f) s = (Returns b, s2) →
  ∃ a s1, m s = (Returns a, s1) ∧ f a s1 = (Returns b, s2).
Proof.
  unfold mbind, M_bind. destruct (m s) as [[a|msg] s1]; [eauto | done].
Qed.

Lemma appends_refl P s : appends P s s.
Proof. split; [done | exists []]. by rewrite app_nil_r. Qed.

Lemma appends_trans P s1 s2 s3 :
  appends P s1 s2 → appends P s2 s3 → appends P s1 s3.
Proof.
  intros [H1 (l1 & E1 & F1)] [H2 (l2 & E2 & F2)]. split; [congruence |].
  exists (l1 ++ l2). split.
  - by rewrite E2, E1, app_assoc.
  - by apply Forall_app.
Qed.

Lemma appends_mono (P Q : Call → Prop) s s' :
  (∀ c, P c → Q c) → appends P s s' → appends Q s s'.
Proof.
  intros HPQ [H (l & E & F)]. split; [done |]. exists l. split; [done |].
  eapply Forall_impl; eauto.
Qed.

Lemma frames_ret {A} P (a : A) : frames P (mret a : M W A).
Proof. intros s. apply appends_refl. Qed.

Lemma frames_panic {A} P msg : frames P (panic msg : M W A).
Proof. intros s. apply appends_refl. Qed.

Lemma frames_load P p : frames P (load p : M W _).
Proof. intros s. apply appends_refl. Qed.

Lemma frames_deref {A} P (p : option A) : frames P (deref p : M W A).
Proof. destruct p; [apply frames_ret | apply frames_panic]. Qed.

Lemma frames_call {A} (P : Call → Prop) c (op : W → A * W) :
  P c → frames P (call c op).
Proof.
  intros Hc s. unfold call. destruct (op (backend s)) as [a w']. simpl.
  split; [done |]. exists [c]. split; [done | by constructor].
Qed.

Lemma frames_bind {A B} P (m : M W A) (f : A → M W B) :
  frames P m → (∀ a, frames P (f a)) → frames P (m ≫= f).
Proof.
  intros Hm Hf s. specialize (Hm s). unfold mbind, M_bind.
  destruct (m s) as [[a|msg] s1]; simpl in *; [| done].
  eapply appends_trans; [exact Hm | apply Hf].
Qed.

Lemma frames_mono {A} (P Q : Call → Prop) (m : M W A) :
  (∀ c, P c → Q c) → frames P m → frames Q m.
Proof. intros HPQ Hm s. eapply appends_mono; eauto. Qed.

End MonadFacts.

Create HintDb frames discriminated.
#[global] Hint Resolve frames_ret frames_panic frames_load frames_deref
  : frames.

(** Walks through a computation built from [≫=], [call], branches and
    tuple patterns, leaving no goal when every request satisfies the
    frame. *)
Ltac frames_step :=
  lazymatch goal with
  | |- frames _ (_ ≫= _) => apply frames_bind; [| intros ?]
  | |- frames _ (call _ _) => apply frames_call; reflexivity
  | |- frames _ (if ?b then _ else _) => destruct b
  | |- frames _ (let '(_, _) := ?p in _) => destruct p
  | |- frames _ (match ?p with _ => _ end) => destruct p
  | |- frames _ _ => solve [auto with frames]
  end.

Ltac solve_frames := repeat frames_step.

(** One step of the pass on both sides of an equation: a panic and a
    non-nil error end the pass, a nil error goes on. *)
Tactic Notation "pass_step" constr(m)
    "as" simple_intropattern(r) simple_intropattern(s) :=
  destruct m as [[[[r ?] [?|]]|?] s];
  cbn beta iota zeta delta [not_nil out_rt out_cm out_sec no_outputs];
  [reflexivity | | reflexivity].

(** ** Every step keeps to its own requests *)

Section StepFrames.
Context {W : Type} (sub : Subresources) (co : ConsoleOperator W).
Implicit Types (s : St W) (c : addr).

Lemma SyncRoute_frames c :
  frames (λ x, step_of x = StepRoute) (SyncRoute sub co c).
Proof. unfold SyncRoute. solve_frames. Qed.

Lemma SyncService_frames c :
  frames (λ x, step_of x = StepService) (SyncService sub co c).
Proof. unfold SyncService. solve_frames. Qed.

Lemma SyncConfigMap_frames c rt :
  frames (λ x, step_of x = StepConfigMap) (SyncConfigMap sub co c rt).
Proof. unfold SyncConfigMap. solve_frames. Qed.

Lemma SyncSecret_frames c :
  frames (λ x, step_of x = StepSecret) (SyncSecret sub co c).
Proof. unfold SyncSecret. solve_frames. Qed.

Lemma SyncOAuthClient_frames c sec rt :
  frames (λ x, step_of x = StepOAuthClient) (SyncOAuthClient sub co c sec rt).
Proof. unfold SyncOAuthClient. solve_frames. Qed.

Lemma SyncDeployment_frames c cm sec :
  frames (λ x, step_of x = StepDeployment) (SyncDeployment sub co c cm sec).
Proof. unfold SyncDeployment. solve_frames. Qed.

Lemma run_step_frames c st o :
  frames (λ x, step_of x = st) (run_step sub co c st o).
Proof.
  destruct st; unfold run_step; apply frames_bind;
    try (intros [[? ?] ?]; apply frames_ret).
  - apply SyncRoute_frames.
  - apply SyncService_frames.
  - apply SyncConfigMap_frames.
  - apply SyncSecret_frames.
  - apply SyncOAuthClient_frames.
  - apply SyncDeployment_frames.
Qed.

Lemma run_from_frames c sts o acc :
  frames (λ x, step_of x ∈ sts) (run_from sub co c sts o acc).
Proof.
  revert o acc. induction sts as [|st rest IH]; intros o acc; simpl.
  - apply frames_ret.
  - apply frames_bind.
    + eapply frames_mono; [| apply run_step_frames].
      intros x <-. apply list_elem_of_here.
    + intros [[o' changed] err]. destruct (not_nil err).
      * apply frames_ret.
      * eapply frames_mono; [| apply IH].
        intros x Hx. by apply list_elem_of_further.
Qed.

(** The pass hands back the pointer it was given. *)
Lemma run_from_pointer c sts o acc s c' changed err s' :
  run_from sub co c sts o acc s = (Returns (c', changed, err), s') → c' = c.
Proof.
  revert o acc s. induction sts as [|st rest IH]; intros o acc s; simpl.
  - by intros [= <- _ _ _].
  - intros H. apply bind_inv in H as ([[o' ch] e] & s1 & _ & H).
    destruct (not_nil e); [by injection H as <- _ _ _ | eauto].
Qed.

(** ** [sync_v400] is the run of its six steps in order *)

Lemma sync_v400_run_from c s :
  sync_v400 sub co c s = run_from sub co c all_steps no_outputs false s.
Proof.
  unfold sync_v400, all_steps, run_from, run_step, mbind, M_bind, mret, M_ret.
  pass_step (SyncRoute sub co c s) as rt s1.
  pass_step (SyncService sub co c s1) as svc s2.
  pass_step (SyncConfigMap sub co c rt s2) as cm s3.
  pass_step (SyncSecret sub co c s3) as sec s4.
  pass_step (SyncOAuthClient sub co c sec rt s4) as oa s5.
  pass_step (SyncDeployment sub co c cm sec s5) as dep s6.
  reflexivity.
Qed.

Lemma steps_from_cons st st' :
  step_index st' = S (step_index st) →
  steps_from st = st :: steps_from st'.
Proof. destruct st, st'; simpl; intros [=]; reflexivity. Qed.

Lemma steps_from_last st :
  step_index st = 6 → steps_from st = [st].
Proof. destruct st; simpl; intros [=]; reflexivity. Qed.

Lemma Reaches_run_from c s0 st o acc s :
  Reaches sub co c s0 st o acc s →
  sync_v400 sub co c s0 = run_from sub co c (steps_from st) o acc s.
Proof.
  induction 1 as [|st st' o acc s o' changed s' _ IH Hrun Hnext].
  - apply sync_v400_run_from.
  - rewrite IH, (steps_from_cons st st' Hnext). simpl.
    by rewrite (bind_returns _ _ _ _ _ Hrun).
Qed.

Lemma Reaches_frames c s0 st o acc s :
  Reaches sub co c s0 st o acc s →
  appends (λ x, step_index (step_of x) < step_index st) s0 s.
Proof.
  induction 1 as [|st st' o acc s o' changed s' _ IH Hrun Hnext].
  - apply appends_refl.
  - eapply appends_trans.
    + eapply appends_mono; [| exact IH]. intros x. simpl. lia.
    + pose proof (run_step_frames c st o s) as Hf. rewrite Hrun in Hf.
      eapply appends_mono; [| exact Hf]. intros x ->. simpl. lia.
Qed.

(** A non-nil error at the step the pass has arrived at ends the pass
    there, with the flag accumulated before the step. *)
Lemma Reaches_stop c s0 st o acc s o' changed e s' :
  Reaches sub co c s0 st o acc s →
  run_step sub co c st o s = (Returns (o', changed, Some e), s') →
  sync_v400 sub co c s0 = (Returns (c, acc, Some e), s').
Proof.
  intros Hreach Hrun. rewrite (Reaches_run_from _ _ _ _ _ _ Hreach).
  destruct st; simpl; by rewrite (bind_returns _ _ _ _ _ Hrun).
Qed.

(** On each path of [Failure] the step returns the error given there. *)
Lemma Failure_run_step c st o s e r :
  Failure sub co c st o s e r →
  ∃ o' changed e' s',
    r = Some e'
    ∧ run_step sub co c st o s = (Returns (o', changed, r), s').
Proof.
  destruct 1;
    unfold run_step, SyncRoute, SyncService, SyncConfigMap, SyncSecret,
      SyncOAuthClient, SyncDeployment, fmt_Errorf, errors_New,
      mbind, M_bind, call, load, deref, mret, M_ret;
    repeat first
      [ progress cbn beta iota zeta delta [not_nil orb heap backend calls]
      | match goal with H : _ = _ |- _ => rewrite H end
      | progress change (IsNotFound None) with false
      | rewrite bool_decide_eq_false_2 by done ];
    eauto 10.
Qed.

End StepFrames.

(** ** The ordering of the pass *)

Section Ordering.
Context {W : Type} (sub : Subresources) (co : ConsoleOperator W).
Implicit Types (s : St W) (c : addr).

(** The two "created for the first time" signals are non-nil errors. *)
Lemma SyncSecret_just_created c s secret err w1 :
  Secrets_Get (secretsClient co) (controller_TargetNamespace sub)
              (secretsub_Stub_Name sub) (backend s) = ((secret, err), w1) →
  IsNotFound err = true →
  ∃ changed createErr s',
    SyncSecret sub co c s =
      (Returns (None, changed,
                fmt_Errorf
                  "secret not found, creating new secret, create error = "
                  createErr), s').
Proof.
  intros Hget Hnf. unfold SyncSecret, mbind, M_bind, call, load, mret, M_ret.
  rewrite Hget. cbn beta iota zeta. rewrite Hnf. cbn.
  destruct (Random256BitsString co w1) as [random w2]. cbn.
  destruct (ApplySecret _ _ w2) as [[[x changed] createErr] w3]. cbn.
  eauto.
Qed.

Lemma SyncDeployment_just_created c cm sec s console existing err w1 :
  heap s !! c = Some console →
  Deployments_Get (deploymentClient co) (controller_TargetNamespace sub)
                  (deploymentsub_Stub_Name sub) (backend s)
    = ((existing, err), w1) →
  IsNotFound err = true →
  ∃ changed createErr s',
    SyncDeployment sub co c cm sec s =
      (Returns (None, changed,
                fmt_Errorf
                  "deployment not found, creating new deployment, create error = "
                  createErr), s').
Proof.
  intros Hc Hget Hnf.
  unfold SyncDeployment, mbind, M_bind, call, load, deref, mret, M_ret.
  rewrite Hc. cbn beta iota zeta. rewrite Hget. cbn beta iota zeta.
  rewrite Hnf. cbn.
  destruct (ApplyDeployment _ _ _ _ w1) as [[[x changed] createErr] w2]. cbn.
  eauto.
Qed.

(** C1.  When the pass has arrived at step [st] (every earlier step
    returned a nil error) and that step returns a non-nil error [e]
    (the "just created" signals are such errors), then [sync_v400]
    returns the [consoleConfig] it was given together with [e], it ends
    in the very state [s'] in which the step returned, and the requests
    sent during the pass all belong to steps up to [st]: no later step
    was invoked. *)
Theorem sync_v400_stops_at_failing_step c s0 st o acc s o' changed e s' :
  Reaches sub co c s0 st o acc s →
  run_step sub co c st o s = (Returns (o', changed, Some e), s') →
  sync_v400 sub co c s0 = (Returns (c, acc, Some e), s')
  ∧ ∃ l, calls s' = calls s0 ++ l
         ∧ ∀ x, x ∈ l → step_index (step_of x) ≤ step_index st.
Proof.
  intros Hreach Hrun. split.
  - by eapply Reaches_stop.
  - destruct (Reaches_frames _ _ _ _ _ _ _ _ Hreach) as [_ (l1 & E1 & F1)].
    pose proof (run_step_frames sub co c st o s) as Hf. rewrite Hrun in Hf.
    destruct Hf as [_ (l2 & E2 & F2)]. simpl in E2.
    exists (l1 ++ l2). split.
    + by rewrite E2, E1, app_assoc.
    + intros x [Hx|Hx]%elem_of_app.
      * rewrite Forall_forall in F1. specialize (F1 x Hx). simpl in F1. lia.
      * rewrite Forall_forall in F2. by rewrite (F2 x Hx).
Qed.

(** C4, as the code has it.  When the pass has arrived at a step and
    a request of that step fails with [e] on one of the paths of
    [Failure], the step returns the error [r] of that path and
    [sync_v400] returns [r] to its caller.  [r] is [e] itself for the
    route get-or-create, the service, config map and oauth-client
    applies, the deployment update, and the gets of the secret (with a
    non-empty secret string) and of the deployment when the reason is
    not not-found; it is a new error quoting [e] when the apply that
    creates a missing secret or deployment fails; it is the fixed error
    "oauth client for console does not exist." when the oauth-client
    get fails. *)
Theorem sync_v400_returns_failure c s0 st o acc s e r :
  Reaches sub co c s0 st o acc s →
  Failure sub co c st o s e r →
  ∃ o' changed s',
    run_step sub co c st o s = (Returns (o', changed, r), s')
    ∧ sync_v400 sub co c s0 = (Returns (c, acc, r), s').
Proof.
  intros Hreach Hfail.
  destruct (Failure_run_step sub co c st o s e r Hfail)
    as (o' & changed & e' & s' & -> & Hrun).
  exists o', changed, s'. split; [exact Hrun |].
  by eapply Reaches_stop.
Qed.

(** C7.  When the six steps, run in order from [s0], all return a nil
    error, [sync_v400] returns a nil error and the disjunction of the
    six changed flags. *)
Theorem sync_v400_all_steps_ok c s0
    rt rtChanged s1 svc svcChanged s2 cm cmChanged s3
    sec secChanged s4 oa oauthChanged s5 dep depChanged s6 :
  SyncRoute sub co c s0 = (Returns (rt, rtChanged, None), s1) →
  SyncService sub co c s1 = (Returns (svc, svcChanged, None), s2) →
  SyncConfigMap sub co c rt s2 = (Returns (cm, cmChanged, None), s3) →
  SyncSecret sub co c s3 = (Returns (sec, secChanged, None), s4) →
  SyncOAuthClient sub co c sec rt s4
    = (Returns (oa, oauthChanged, None), s5) →
  SyncDeployment sub co c cm sec s5 = (Returns (dep, depChanged, None), s6) →
  sync_v400 sub co c s0 =
    (Returns (c, rtChanged || svcChanged || cmChanged
                 || secChanged || oauthChanged || depChanged, None), s6).
Proof.
  intros H1 H2 H3 H4 H5 H6. unfold sync_v400.
  rewrite (bind_returns _ _ _ _ _ H1). cbn [not_nil].
  rewrite (bind_returns _ _ _ _ _ H2). cbn [not_nil].
  rewrite (bind_returns _ _ _ _ _ H3). cbn [not_nil].
  rewrite (bind_returns _ _ _ _ _ H4). cbn [not_nil].
  rewrite (bind_returns _ _ _ _ _ H5). cbn [not_nil].
  rewrite (bind_returns _ _ _ _ _ H6). cbn [not_nil].
  reflexivity.
Qed.

(** C9.  On every path [sync_v400] leaves the heap of [Console] objects
    as it found it, and when it returns it returns the pointer it was
    given. *)
Theorem sync_v400_reads_consoleConfig_only c s :
  heap (sync_v400 sub co c s).2 = heap s
  ∧ match (sync_v400 sub co c s).1 with
    | Returns (c', _, _) => c' = c
    | Panics _ => True
    end.
Proof.
  rewrite sync_v400_run_from. split.
  - apply (run_from_frames sub co c all_steps no_outputs false s).
  - destruct (run_from sub co c all_steps no_outputs false s)
      as [[[[c' changed] err]|msg] s'] eqn:E; simpl; [| done].
    by eapply run_from_pointer.
Qed.

End Ordering.

(** ** The steps *)

Section Steps.
Context {W : Type} (sub : Subresources) (co : ConsoleOperator W).
Implicit Types (s : St W) (c : addr).

(** X17.  When the get returns a secret and a nil error, and the secret's
    string is not empty, [SyncSecret] returns that secret with a false
    changed flag and a nil error; the only request it sends is the get,
    and the backend is left in the state the get left it in.  The heap,
    hence the desired state, is arbitrary. *)
Theorem SyncSecret_keeps_existing_secret c s secret w1 :
  Secrets_Get (secretsClient co) (controller_TargetNamespace sub)
              (secretsub_Stub_Name sub) (backend s)
    = ((Some secret, None), w1) →
  secretsub_GetSecretString sub (Some secret) ≠ EmptyString →
  SyncSecret sub co c s =
    (Returns (Some secret, false, None),
     mkSt (heap s) w1
          (calls s ++ [SecretGet (controller_TargetNamespace sub)
                                 (secretsub_Stub_Name sub)])).
Proof.
  intros Hget Hne. unfold SyncSecret, mbind, M_bind, call, mret, M_ret.
  rewrite Hget. cbn beta iota zeta delta [IsNotFound orb not_nil].
  by rewrite bool_decide_eq_false_2.
Qed.

(** C5.  When the backend returns a route whose host is empty,
    [SyncRoute] returns a nil route and a non-nil error, and
    [sync_v400] returns that error in the state the route step left:
    the trace holds the route request and nothing after it. *)
Theorem SyncRoute_waits_for_host c s rt isNew err w1 :
  GetOrCreate (routeClient co) (routesub_DefaultRoute sub (heap s !! c))
              (backend s) = ((Some rt, isNew, err), w1) →
  routev1.Host (routev1.Spec rt) = EmptyString →
  ∃ e,
    SyncRoute sub co c s =
      (Returns (None, false, Some e),
       mkSt (heap s) w1
            (calls s
             ++ [RouteGetOrCreate (routesub_DefaultRoute sub (heap s !! c))]))
    ∧ sync_v400 sub co c s =
      (Returns (c, false, Some e),
       mkSt (heap s) w1
            (calls s
             ++ [RouteGetOrCreate (routesub_DefaultRoute sub (heap s !! c))])).
Proof.
  intros Hget Hhost.
  assert (∃ e, SyncRoute sub co c s =
      (Returns (None, false, Some e),
       mkSt (heap s) w1
            (calls s
             ++ [RouteGetOrCreate (routesub_DefaultRoute sub (heap s !! c))])))
    as [e He].
  { unfold SyncRoute, mbind, M_bind, call, load, deref, mret, M_ret.
    cbn beta iota zeta. rewrite Hget. cbn beta iota zeta.
    destruct err as [e|]; cbn [not_nil]; [by exists e |].
    rewrite Hhost. cbn. eauto. }
  exists e. split; [exact He |].
  unfold sync_v400. by rewrite (bind_returns _ _ _ _ _ He).
Qed.

(** Whatever error the oauth-client get returns, [SyncOAuthClient]
    returns the fixed error "oauth client for console does not exist."
    in its place. *)
Lemma SyncOAuthClient_get_error c sec rt s client e w1 :
  OAuthClients_Get (oauthClient co) (oauthsub_Stub_Name sub) (backend s)
    = ((client, Some e), w1) →
  SyncOAuthClient sub co c sec rt s =
    (Returns (None, false,
              Some (errorString "oauth client for console does not exist.")),
     mkSt (heap s) w1 (calls s ++ [OAuthClientGet (oauthsub_Stub_Name sub)])).
Proof.
  intros Hget. unfold SyncOAuthClient, mbind, M_bind, call, mret, M_ret.
  by rewrite Hget.
Qed.

(** The sibling path: a deployment get that fails for a reason other
    than not-found is returned as it is. *)
Lemma SyncDeployment_get_error c cm sec s console existing e w1 :
  heap s !! c = Some console →
  Deployments_Get (deploymentClient co) (controller_TargetNamespace sub)
                  (deploymentsub_Stub_Name sub) (backend s)
    = ((existing, Some e), w1) →
  IsNotFound (Some e) = false →
  (SyncDeployment sub co c cm sec s).1 = Returns (None, false, Some e).
Proof.
  intros Hc Hget Hnf.
  unfold SyncDeployment, mbind, M_bind, call, load, deref, mret, M_ret.
  rewrite Hc. cbn beta iota zeta. rewrite Hget. cbn beta iota zeta.
  by rewrite Hnf.
Qed.

(** [secretAndOauthMatch] answers true exactly when the two readers give
    the same string.  What the readers do with a nil pointer is theirs
    to say: they are parameters here. *)
Lemma secretAndOauthMatch_iff secret client :
  secretAndOauthMatch sub secret client = true
  ↔ secretsub_GetSecretString sub secret
    = oauthsub_GetSecretString sub client.
Proof. unfold secretAndOauthMatch. apply bool_decide_eq_true. Qed.

(** What the body of [setStatus] assigns to its copy of the status. *)
Lemma setStatus_body_assigns cs svc r cm dep oa sec s :
  setStatus_body sub cs svc (Some r) cm dep oa sec s =
    (Returns
       (v1alpha1.mkConsoleStatus
          (routev1.Host (routev1.Spec r))
          (if secretAndOauthMatch sub sec oa then "valid" else "mismatch")),
     s).
Proof.
  unfold setStatus_body, mbind, M_bind, deref, mret, M_ret. cbn.
  case_bool_decide as Hhost; destruct (secretAndOauthMatch sub sec oa);
    cbn; try reflexivity.
  all: by rewrite Hhost.
Qed.

(** C6.  With a nil route [setStatus] panics on [rt.Spec.Host], whatever
    the other arguments are: no status is produced. *)
Theorem setStatus_nil_route_panics cs svc cm dep oa sec s :
  setStatus sub cs svc None cm dep oa sec s =
    (Panics "runtime error: invalid memory address or nil pointer dereference",
     s).
Proof. reflexivity. Qed.

(** C10.  [setStatus] leaves the whole state as it was; in particular a
    [Console] of the heap whose [Status] was passed in still has that
    [Status] afterwards. *)
Theorem setStatus_leaves_caller_status s p console svc rt cm dep oa sec :
  heap s !! p = Some console →
  (setStatus sub (v1alpha1.Status console) svc rt cm dep oa sec s).2 = s
  ∧ heap (setStatus sub (v1alpha1.Status console) svc rt cm dep oa sec s).2
      !! p = Some console.
Proof.
  intros Hp.
  assert ((setStatus sub (v1alpha1.Status console) svc rt cm dep oa sec s).2
          = s) as ->; [| done].
  unfold setStatus. destruct rt as [r|]; [| reflexivity].
  by rewrite (bind_returns _ _ _ _ _ (setStatus_body_assigns _ _ _ _ _ _ _ _)).
Qed.

End Steps.

(** ** The pass on the in-memory backend *)

Section Runs.
Import Fake.

Lemma sync_v400_stops_at_failing_step_witness :
  ∃ s',
    sync_v400 sub co consoleConfig (start withoutSecret) =
      (Returns
         (consoleConfig, false,
          Some (errorString
                  "secret not found, creating new secret, create error = <nil>")),
       s')
    ∧ ∃ l, calls s' = calls (start withoutSecret) ++ l
           ∧ ∀ x, x ∈ l → step_index (step_of x) ≤ 4.
Proof.
  pose proof (reaches_first sub co consoleConfig (start withoutSecret)) as H0.
  pose proof (reaches_next sub co _ _ StepRoute StepService
                _ _ _ _ _ _ H0 eq_refl eq_refl) as H1.
  pose proof (reaches_next sub co _ _ StepService StepConfigMap
                _ _ _ _ _ _ H1 eq_refl eq_refl) as H2.
  pose proof (reaches_next sub co _ _ StepConfigMap StepSecret
                _ _ _ _ _ _ H2 eq_refl eq_refl) as H3.
  eexists.
  exact (sync_v400_stops_at_failing_step sub co _ _ StepSecret
           _ _ _ _ _ _ _ H3 eq_refl).
Defined.

Lemma sync_v400_all_steps_ok_witness :
  ∃ s6,
    sync_v400 sub co consoleConfig (start withoutService) =
      (Returns (consoleConfig, true, None), s6).
Proof.
  eexists.
  exact (sync_v400_all_steps_ok sub co consoleConfig (start withoutService)
           _ false _ _ true _ _ false _ _ false _ _ false _ _ false _
           eq_refl eq_refl eq_refl eq_refl eq_refl eq_refl).
Defined.

Lemma SyncSecret_keeps_existing_secret_witness :
  SyncSecret sub co consoleConfig (start converged) =
    (Returns (Some theSecret, false, None),
     mkSt (heap (start converged)) converged
          [SecretGet "openshift-console" "console-oauth-config"]).
Proof.
  apply (SyncSecret_keeps_existing_secret sub co consoleConfig
           (start converged) theSecret converged).
  - reflexivity.
  - vm_compute. discriminate.
Defined.

Lemma SyncRoute_waits_for_host_witness :
  ∃ e,
    SyncRoute sub co consoleConfig (start emptyStore) =
      (Returns (None, false, Some e),
       mkSt (heap (start emptyStore))
            (mkStore (Some (routesub_DefaultRoute sub (Some console)))
                     None None None None None None 0)
            [RouteGetOrCreate (routesub_DefaultRoute sub (Some console))])
    ∧ sync_v400 sub co consoleConfig (start emptyStore) =
      (Returns (consoleConfig, false, Some e),
       mkSt (heap (start emptyStore))
            (mkStore (Some (routesub_DefaultRoute sub (Some console)))
                     None None None None None None 0)
            [RouteGetOrCreate (routesub_DefaultRoute sub (Some console))]).
Proof.
  apply (SyncRoute_waits_for_host sub co consoleConfig (start emptyStore)
           (routesub_DefaultRoute sub (Some console)) true None).
  - reflexivity.
  - reflexivity.
Defined.

Lemma setStatus_leaves_caller_status_witness :
  (setStatus sub (v1alpha1.Status console) (Some theService) (Some theRoute)
     (Some theConfigMap) (Some theDeployment) (Some theOAuthClient)
     (Some theSecret) (start converged)).2 = start converged
  ∧ heap (setStatus sub (v1alpha1.Status console) (Some theService)
            (Some theRoute) (Some theConfigMap) (Some theDeployment)
            (Some theOAuthClient) (Some theSecret) (start converged)).2
      !! consoleConfig = Some console.
Proof.
  apply (setStatus_leaves_caller_status sub (start converged) consoleConfig
           console).
  reflexivity.
Defined.

(** The copy held by the body does change on that input. *)
Example setStatus_body_converged :
  (setStatus_body sub (v1alpha1.Status console) (Some theService)
     (Some theRoute) (Some theConfigMap) (Some theDeployment)
     (Some theOAuthClient) (Some theSecret) (start converged)).1
  = Returns (v1alpha1.mkConsoleStatus "console.example.com" "valid").
Proof. vm_compute. reflexivity. Qed.

(** C2.  Route, service and config map are in place and the secret is
    missing.  [SyncSecret] creates the secret and returns a true changed
    flag with its terminating error; [sync_v400] returns that error with
    a false changed flag. *)
Theorem sync_v400_drops_created_flag :
  (SyncSecret sub co consoleConfig (start withoutSecret)).1 =
    Returns
      (None, true,
       Some (errorString
               "secret not found, creating new secret, create error = <nil>"))
  ∧ (sync_v400 sub co consoleConfig (start withoutSecret)).1 =
    Returns
      (consoleConfig, false,
       Some (errorString
               "secret not found, creating new secret, create error = <nil>"))
  ∧ secret (backend (sync_v400 sub co consoleConfig (start withoutSecret)).2)
    = Some theSecret.
Proof. vm_compute. repeat split; reflexivity. Qed.

(** Counterexample to C4 as stated.  The oauth-client get fails with a
    timeout, which is not a not-found error.  [SyncOAuthClient], and
    with it [sync_v400], returns the error "oauth client for console
    does not exist.", which is not the timeout. *)
Lemma SyncOAuthClient_replaces_backend_error :
  OAuthClients_Get (oauthClient co) (oauthsub_Stub_Name sub) oauthGetTimesOut
    = ((Some emptyOAuthClient, Some timedOut), oauthGetTimesOut)
  ∧ IsNotFound (Some timedOut) = false
  ∧ (SyncOAuthClient sub co consoleConfig (Some theSecret) (Some theRoute)
       (start oauthGetTimesOut)).1 =
    Returns (None, false,
             Some (errorString "oauth client for console does not exist."))
  ∧ (sync_v400 sub co consoleConfig (start oauthGetTimesOut)).1 =
    Returns (consoleConfig, false,
             Some (errorString "oauth client for console does not exist."))
  ∧ errorString "oauth client for console does not exist." ≠ timedOut.
Proof. vm_compute. repeat split; try reflexivity. discriminate. Qed.

(** The apply that creates the missing secret times out: the step
    returns a new error that quotes the timeout. *)
Example SyncSecret_quotes_create_failure :
  (sync_v400 sub co consoleConfig (start secretCreateTimesOut)).1 =
    Returns
      (consoleConfig, false,
       Some (errorString
               ("secret not found, creating new secret, create error = "
                +:+ "etcdserver: request timed out"))).
Proof. vm_compute. reflexivity. Qed.

Lemma sync_v400_returns_failure_witness :
  ∃ o' changed s',
    run_step sub co consoleConfig StepDeployment
      (mkOutputs (Some theRoute) (Some theConfigMap) (Some theSecret))
      (mkSt (heap (start deploymentGetTimesOut)) deploymentGetTimesOut
            [RouteGetOrCreate (routesub_DefaultRoute sub (Some console));
             ServiceApply theService;
             ConfigMapApply theConfigMap;
             SecretGet "openshift-console" "console-oauth-config";
             OAuthClientGet "console-oauth-client";
             OAuthClientApply (Some theOAuthClient)])
      = (Returns (o', changed, Some timedOut), s')
    ∧ sync_v400 sub co consoleConfig (start deploymentGetTimesOut)
      = (Returns (consoleConfig, false, Some timedOut), s').
Proof.
  pose proof (reaches_first sub co consoleConfig
                (start deploymentGetTimesOut)) as H0.
  pose proof (reaches_next sub co _ _ StepRoute StepService
                _ _ _ _ _ _ H0 eq_refl eq_refl) as H1.
  pose proof (reaches_next sub co _ _ StepService StepConfigMap
                _ _ _ _ _ _ H1 eq_refl eq_refl) as H2.
  pose proof (reaches_next sub co _ _ StepConfigMap StepSecret
                _ _ _ _ _ _ H2 eq_refl eq_refl) as H3.
  pose proof (reaches_next sub co _ _ StepSecret StepOAuthClient
                _ _ _ _ _ _ H3 eq_refl eq_refl) as H4.
  pose proof (reaches_next sub co _ _ StepOAuthClient StepDeployment
                _ _ _ _ _ _ H4 eq_refl eq_refl) as H5.
  refine (sync_v400_returns_failure sub co _ _ StepDeployment _ _ _
            timedOut (Some timedOut) H5 _).
  apply (fail_deployment_get sub co consoleConfig _ _ console
           (Some emptyDeployment) timedOut deploymentGetTimesOut);
    reflexivity.
Defined.

(** The deployment step on the same kind of failure hands the timeout
    back as it is. *)
Example SyncDeployment_propagates_timeout :
  (SyncDeployment sub co consoleConfig (Some theConfigMap) (Some theSecret)
     (start deploymentGetTimesOut)).1
  = Returns (None, false, Some timedOut).
Proof. vm_compute. reflexivity. Qed.

(** The three ways a pass ends, each with the pointer it was given and
    the heap as it was: the route has no host yet, the secret has just
    been created, every step is done. *)
Example sync_v400_three_paths :
  (sync_v400 sub co consoleConfig (start emptyStore)).1
    = Returns (consoleConfig, false,
               Some (errorString "Waiting on Route.Spec.Host"))
  ∧ (sync_v400 sub co consoleConfig (start withoutSecret)).1
    = Returns (consoleConfig, false,
               Some (errorString
                 "secret not found, creating new secret, create error = <nil>"))
  ∧ sync_v400 sub co consoleConfig (start converged)
    = (Returns (consoleConfig, false, None),
       mkSt (heap (start converged)) converged
            [RouteGetOrCreate (routesub_DefaultRoute sub (Some console));
             ServiceApply theService;
             ConfigMapApply theConfigMap;
             SecretGet "openshift-console" "console-oauth-config";
             OAuthClientGet "console-oauth-client";
             OAuthClientApply (Some theOAuthClient);
             DeploymentGet "openshift-console" "console"]).
Proof. vm_compute. repeat split; reflexivity. Qed.

End Runs.

(** ** Further properties of the steps *)

Lemma not_nil_false {A} (p : option A) : not_nil p = false → p = None.
Proof. by destruct p. Qed.

(** Unfolds a step down to the requests it sends. *)
Ltac unfold_steps :=
  unfold run_step, SyncRoute, SyncService, SyncConfigMap, SyncSecret,
    SyncOAuthClient, SyncDeployment, fmt_Errorf, errors_New,
    mbind, M_bind, call, load, deref, panic, mret, M_ret in *.

(** Splits on every result a step inspects. *)
Ltac crunch :=
  repeat (cbn beta iota zeta delta [fst snd heap backend calls not_nil] in *;
          first
            [ case_match
            | progress simplify_eq
            | match goal with
              | H : not_nil _ = false |- _ => apply not_nil_false in H
              end ]).

(** Runs a step along the results given by the hypotheses. *)
Ltac run_hyps :=
  repeat first
    [ progress cbn beta iota zeta delta [not_nil orb heap backend calls]
    | match goal with H : _ = _ |- _ => rewrite H end
    | progress change (IsNotFound None) with false
    | rewrite bool_decide_eq_true_2 by done
    | rewrite bool_decide_eq_false_2 by done ].

Section StepResults.
Context {W : Type} (sub : Subresources) (co : ConsoleOperator W).
Implicit Types (s : St W) (c : addr).

(** X4.  A route step that returns a nil error returns the route the
    backend gave, and that route has a host: later steps never see a nil
    or host-less route. *)
Theorem SyncRoute_ok_has_host c s rt isNew s' :
  SyncRoute sub co c s = (Returns (rt, isNew, None), s') →
  ∃ r, rt = Some r
       ∧ routev1.Host (routev1.Spec r) ≠ EmptyString
       ∧ GetOrCreate (routeClient co)
           (routesub_DefaultRoute sub (heap s !! c)) (backend s)
         = ((Some r, isNew, None), backend s').
Proof.
  unfold_steps. intros H. crunch.
  eexists. split; [done |]. split; [| done].
  intros Hhost. by rewrite Hhost in *.
Qed.

(** X5.  A secret step that returns a nil error has sent the get and
    nothing else, reports no change, and returns a secret whose string
    is not empty. *)
Theorem SyncSecret_ok_inv c s sec changed s' :
  SyncSecret sub co c s = (Returns (sec, changed, None), s') →
  changed = false
  ∧ secretsub_GetSecretString sub sec ≠ EmptyString
  ∧ calls s' = calls s ++ [SecretGet (controller_TargetNamespace sub)
                                     (secretsub_Stub_Name sub)].
Proof.
  unfold_steps. intros H. crunch.
  split; [done |]. split; [| done].
  match goal with H : _ || _ = false |- _ =>
    apply orb_false_elim in H as [_ H]; by apply bool_decide_eq_false in H
  end.
Qed.

(** X6.  No step returns a resource together with an error, and the
    route, service, config map and oauth-client steps never report a
    change together with an error. *)
Theorem steps_error_excludes_resource c s rt cm sec :
  resource_xor_error (SyncRoute sub co c s).1
  ∧ resource_xor_error (SyncService sub co c s).1
  ∧ resource_xor_error (SyncConfigMap sub co c rt s).1
  ∧ resource_xor_error (SyncSecret sub co c s).1
  ∧ resource_xor_error (SyncOAuthClient sub co c sec rt s).1
  ∧ resource_xor_error (SyncDeployment sub co c cm sec s).1
  ∧ unchanged_on_error (SyncRoute sub co c s).1
  ∧ unchanged_on_error (SyncService sub co c s).1
  ∧ unchanged_on_error (SyncConfigMap sub co c rt s).1
  ∧ unchanged_on_error (SyncOAuthClient sub co c sec rt s).1.
Proof.
  repeat split; unfold resource_xor_error, unchanged_on_error;
    unfold_steps; crunch; done.
Qed.


(** X15.  When the secret get reports not-found, the step draws a
    random string, applies the default secret built from it, and
    returns a nil secret, the flag of the apply and a non-nil
    terminating error, also when the apply succeeded: the secret it has
    just created is never handed on. *)
Theorem SyncSecret_not_found_creates c s secret err w1 random w2 x changed
    applyErr w3 :
  Secrets_Get (secretsClient co) (controller_TargetNamespace sub)
              (secretsub_Stub_Name sub) (backend s)
    = ((secret, err), w1) →
  IsNotFound err = true →
  Random256BitsString co w1 = (random, w2) →
  ApplySecret (secretsClient co)
    (secretsub_DefaultSecret sub (heap s !! c) random) w2
    = ((x, changed, applyErr), w3) →
  SyncSecret sub co c s =
    (Returns (None, changed,
              fmt_Errorf
                "secret not found, creating new secret, create error = "
                applyErr),
     mkSt (heap s) w3
          (calls s
           ++ [SecretGet (controller_TargetNamespace sub)
                         (secretsub_Stub_Name sub);
               RandomSecretString;
               SecretApply
                 (secretsub_DefaultSecret sub (heap s !! c) random)])).
Proof.
  intros Hget Hnf Hrandom Happly. unfold_steps. run_hyps.
  by rewrite <- !app_assoc.
Qed.

(** X16.  When the deployment get reports not-found, the step applies
    the default deployment, with the generation expected of it and a
    forced rollout, and returns a nil deployment, the flag of the apply
    and a non-nil terminating error, also when the apply succeeded. *)
Theorem SyncDeployment_not_found_creates c cm sec s console existing err w1
    x changed applyErr w2 :
  heap s !! c = Some console →
  Deployments_Get (deploymentClient co) (controller_TargetNamespace sub)
                  (deploymentsub_Stub_Name sub) (backend s)
    = ((existing, err), w1) →
  IsNotFound err = true →
  ApplyDeployment (deploymentClient co)
    (deploymentsub_DefaultDeployment sub (Some console) cm sec)
    (resourcemerge_ExpectedDeploymentGeneration sub
       (deploymentsub_DefaultDeployment sub (Some console) cm sec)
       (operatorv1alpha1.mkVersionAvailability
          (v1alpha1.Version (v1alpha1.Spec console))))
    true w1
    = ((x, changed, applyErr), w2) →
  SyncDeployment sub co c cm sec s =
    (Returns (None, changed,
              fmt_Errorf
                "deployment not found, creating new deployment, create error = "
                applyErr),
     mkSt (heap s) w2
          (calls s
           ++ [DeploymentGet (controller_TargetNamespace sub)
                             (deploymentsub_Stub_Name sub);
               DeploymentApply
                 (deploymentsub_DefaultDeployment sub (Some console) cm sec)
                 (resourcemerge_ExpectedDeploymentGeneration sub
                    (deploymentsub_DefaultDeployment sub (Some console) cm sec)
                    (operatorv1alpha1.mkVersionAvailability
                       (v1alpha1.Version (v1alpha1.Spec console))))
                 true])).
Proof.
  intros Hc Hget Hnf Happly. unfold_steps. run_hyps.
  by rewrite <- !app_assoc.
Qed.

(** X8.  The secret step never returns a not-found error: a missing
    secret comes back as the terminating error of the create path. *)
Theorem SyncSecret_never_not_found c s :
  never_not_found (SyncSecret sub co c s).1.
Proof.
  unfold never_not_found. unfold_steps. crunch; try done.
  match goal with H : _ || _ = false |- _ =>
    by apply orb_false_elim in H as [H _]
  end.
Qed.

(** X11.  Whenever the oauth-client get returns a nil error, the step
    writes the registration (route and the string of the secret it was
    handed) into the client it got and applies it, changed or not: the
    requests are the get and that apply, and the result is the apply's,
    with a nil client and a false flag when the apply fails. *)
Theorem SyncOAuthClient_reregisters c sec rt s client w1 :
  OAuthClients_Get (oauthClient co) (oauthsub_Stub_Name sub) (backend s)
    = ((client, None), w1) →
  ∃ x changed err w2,
    ApplyOAuth (oauthClient co)
      (oauthsub_RegisterConsoleToOAuthClient sub client rt
         (secretsub_GetSecretString sub sec)) w1
      = ((x, changed, err), w2)
    ∧ SyncOAuthClient sub co c sec rt s =
      (Returns (if not_nil err then (None, false, err)
                else (x, changed, None)),
       mkSt (heap s) w2
            (calls s
             ++ [OAuthClientGet (oauthsub_Stub_Name sub);
                 OAuthClientApply
                   (oauthsub_RegisterConsoleToOAuthClient sub client rt
                      (secretsub_GetSecretString sub sec))])).
Proof.
  intros Hget.
  destruct (ApplyOAuth (oauthClient co)
              (oauthsub_RegisterConsoleToOAuthClient sub client rt
                 (secretsub_GetSecretString sub sec)) w1)
    as [[[x changed] err] w2] eqn:Happly.
  exists x, changed, err, w2. split; [done |].
  unfold_steps. run_hyps. rewrite <- !app_assoc. by destruct err.
Qed.

(** X9.  A deployment step that returns a nil error found the
    deployment.  Either its version marks were current, and the step
    sent the get only and returns the deployment it found with a false
    flag; or they were not, and the step sent one apply, of the found
    deployment with its marks updated, with the generation expected of
    the default deployment and a forced rollout, and returns what the
    apply returned. *)
Theorem SyncDeployment_ok_inv c cm sec s dep changed s' :
  SyncDeployment sub co c cm sec s = (Returns (dep, changed, None), s') →
  ∃ console existing w1,
    heap s !! c = Some console
    ∧ Deployments_Get (deploymentClient co) (controller_TargetNamespace sub)
        (deploymentsub_Stub_Name sub) (backend s) = ((existing, None), w1)
    ∧ ((deploymentsub_ResourceVersionsChanged sub existing cm sec = false
        ∧ dep = existing ∧ changed = false
        ∧ s' = mkSt (heap s) w1
                 (calls s
                  ++ [DeploymentGet (controller_TargetNamespace sub)
                                    (deploymentsub_Stub_Name sub)]))
       ∨ (deploymentsub_ResourceVersionsChanged sub existing cm sec = true
          ∧ ApplyDeployment (deploymentClient co)
              (deploymentsub_UpdateResourceVersions sub existing cm sec)
              (resourcemerge_ExpectedDeploymentGeneration sub
                 (deploymentsub_DefaultDeployment sub (Some console) cm sec)
                 (operatorv1alpha1.mkVersionAvailability
                    (v1alpha1.Version (v1alpha1.Spec console))))
              true w1
            = ((dep, changed, None), backend s')
          ∧ calls s' =
            calls s
            ++ [DeploymentGet (controller_TargetNamespace sub)
                              (deploymentsub_Stub_Name sub);
                DeploymentApply
                  (deploymentsub_UpdateResourceVersions sub existing cm sec)
                  (resourcemerge_ExpectedDeploymentGeneration sub
                     (deploymentsub_DefaultDeployment sub (Some console)
                        cm sec)
                     (operatorv1alpha1.mkVersionAvailability
                        (v1alpha1.Version (v1alpha1.Spec console))))
                  true])).
Proof.
  unfold_steps. intros H.
  destruct (heap s !! c) as [console|] eqn:Hc; [| crunch].
  cbn beta iota zeta delta [heap backend calls] in H.
  destruct (Deployments_Get _ _ _ (backend s)) as [[existing getErr] w1]
    eqn:Hget.
  cbn beta iota zeta delta [heap backend calls] in H.
  destruct (IsNotFound getErr) eqn:Hnf; [crunch |].
  destruct getErr as [e|]; cbn [not_nil] in H; [crunch |].
  exists console, existing, w1. split; [done |]. split; [done |].
  destruct (deploymentsub_ResourceVersionsChanged sub existing cm sec).
  - right. split; [done |]. crunch.
    split; [done |]. by rewrite <- !app_assoc.
  - left. by simplify_eq.
Qed.

End StepResults.

(** ** Further properties of the pass *)

Section PassResults.
Context {W : Type} (sub : Subresources) (co : ConsoleOperator W).
Implicit Types (s : St W) (c : addr).

Lemma SyncSecret_ok_unchanged c s sec changed s' :
  SyncSecret sub co c s = (Returns (sec, changed, None), s') → changed = false.
Proof. unfold_steps. intros H. by crunch. Qed.

(** A pass that returns a nil error ran its six steps, each of which
    returned a nil error. *)
Lemma sync_v400_ok_steps c s0 c' changed s6 :
  sync_v400 sub co c s0 = (Returns (c', changed, None), s6) →
  ∃ rt rtChanged s1 svc svcChanged s2 cm cmChanged s3 sec s4
    oa oauthChanged s5 dep depChanged,
    SyncRoute sub co c s0 = (Returns (rt, rtChanged, None), s1)
    ∧ SyncService sub co c s1 = (Returns (svc, svcChanged, None), s2)
    ∧ SyncConfigMap sub co c rt s2 = (Returns (cm, cmChanged, None), s3)
    ∧ SyncSecret sub co c s3 = (Returns (sec, false, None), s4)
    ∧ SyncOAuthClient sub co c sec rt s4
      = (Returns (oa, oauthChanged, None), s5)
    ∧ SyncDeployment sub co c cm sec s5 = (Returns (dep, depChanged, None), s6)
    ∧ changed
      = rtChanged || svcChanged || cmChanged || oauthChanged || depChanged.
Proof.
  intros H. unfold sync_v400 in H.
  apply bind_inv in H as ([[rt ch1] [e|]] & s1 & H1 & H);
    cbn [not_nil] in H; [done |].
  apply bind_inv in H as ([[svc ch2] [e|]] & s2 & H2 & H);
    cbn [not_nil] in H; [done |].
  apply bind_inv in H as ([[cm ch3] [e|]] & s3 & H3 & H);
    cbn [not_nil] in H; [done |].
  apply bind_inv in H as ([[sec ch4] [e|]] & s4 & H4 & H);
    cbn [not_nil] in H; [done |].
  apply bind_inv in H as ([[oa ch5] [e|]] & s5 & H5 & H);
    cbn [not_nil] in H; [done |].
  apply bind_inv in H as ([[dep ch6] [e|]] & s6' & H6 & H);
    cbn [not_nil] in H; [done |].
  injection H as <- <- <-.
  pose proof (SyncSecret_ok_unchanged _ _ _ _ _ H4) as ->.
  exists rt, ch1, s1, svc, ch2, s2, cm, ch3, s3, sec, s4, oa, ch5, s5,
    dep, ch6.
  repeat (split; [done |]). cbn [orb]. by rewrite orb_false_r.
Qed.

(** X1.  [sync_v400] returns a nil error exactly when the six steps, run
    in order and each fed the results of the earlier ones, all return a
    nil error; the secret step then reports no change, and the flag of
    the pass is the disjunction of the other five. *)
Theorem sync_v400_ok_iff c s0 changed s6 :
  sync_v400 sub co c s0 = (Returns (c, changed, None), s6) ↔
  ∃ rt rtChanged s1 svc svcChanged s2 cm cmChanged s3 sec s4
    oa oauthChanged s5 dep depChanged,
    SyncRoute sub co c s0 = (Returns (rt, rtChanged, None), s1)
    ∧ SyncService sub co c s1 = (Returns (svc, svcChanged, None), s2)
    ∧ SyncConfigMap sub co c rt s2 = (Returns (cm, cmChanged, None), s3)
    ∧ SyncSecret sub co c s3 = (Returns (sec, false, None), s4)
    ∧ SyncOAuthClient sub co c sec rt s4
      = (Returns (oa, oauthChanged, None), s5)
    ∧ SyncDeployment sub co c cm sec s5 = (Returns (dep, depChanged, None), s6)
    ∧ changed
      = rtChanged || svcChanged || cmChanged || oauthChanged || depChanged.
Proof.
  split; [apply sync_v400_ok_steps |].
  intros (rt & ch1 & s1 & svc & ch2 & s2 & cm & ch3 & s3 & sec & s4
          & oa & ch5 & s5 & dep & ch6
          & H1 & H2 & H3 & H4 & H5 & H6 & ->).
  unfold sync_v400.
  rewrite (bind_returns _ _ _ _ _ H1). cbn [not_nil].
  rewrite (bind_returns _ _ _ _ _ H2). cbn [not_nil].
  rewrite (bind_returns _ _ _ _ _ H3). cbn [not_nil].
  rewrite (bind_returns _ _ _ _ _ H4). cbn [not_nil].
  rewrite (bind_returns _ _ _ _ _ H5). cbn [not_nil].
  rewrite (bind_returns _ _ _ _ _ H6). cbn [not_nil orb].
  by rewrite orb_false_r.
Qed.

(** The requests of one step: within its budget, all its own, and
    within the smaller budget when the step returns a nil error. *)
Lemma run_step_trace c st o s :
  ∃ l, calls (run_step sub co c st o s).2 = calls s ++ l
       ∧ length l ≤ step_budget st
       ∧ Forall (λ x, step_of x = st) l
       ∧ (∀ o' changed s',
            run_step sub co c st o s = (Returns (o', changed, None), s') →
            length l ≤ step_budget_ok st).
Proof.
  destruct st; unfold_steps; crunch;
    (eexists; split;
     [ cbn [calls]; rewrite <- ?app_assoc;
       first [ reflexivity | symmetry; apply app_nil_r ]
     | split; [simpl; lia |];
       split; [by repeat constructor |];
       intros; simplify_eq; simpl; lia ]).
Qed.

Lemma same_step_sorted st (l : list Call) :
  Forall (λ x, step_of x = st) l → StronglySorted step_le l.
Proof.
  induction 1 as [|x l Hx Hl IH]; constructor; [done |].
  eapply Forall_impl; [exact Hl |]. intros y Hy. unfold step_le.
  by rewrite Hx, Hy.
Qed.

(** The requests of a run of the steps [sts], when [sts] is in the
    order of the pass. *)
Lemma run_from_trace c sts o acc s :
  StronglySorted (λ a b, step_index a < step_index b) sts →
  ∃ l, calls (run_from sub co c sts o acc s).2 = calls s ++ l
       ∧ length l ≤ pass_budget sts
       ∧ StronglySorted step_le l
       ∧ Forall (λ x, step_of x ∈ sts) l.
Proof.
  intros Hsts. revert o acc s.
  induction sts as [|st rest IH]; intros o acc s; simpl.
  - exists []. rewrite app_nil_r. repeat split; [simpl; lia | constructor..].
  - apply StronglySorted_cons in Hsts as [Hlt Hrest].
    destruct (run_step_trace c st o s) as (l1 & E1 & B1 & F1 & Bok).
    unfold mbind, M_bind.
    destruct (run_step sub co c st o s) as [[[[o' changed] [e|]]|msg] s1]
      eqn:Hrun; cbn [not_nil fst snd] in *.
    + exists l1. split; [done |]. split; [lia |].
      split; [by eapply same_step_sorted |].
      eapply Forall_impl; [exact F1 |]. intros x <-. apply list_elem_of_here.
    + destruct (IH Hrest o' (acc || changed) s1) as (l2 & E2 & B2 & S2 & F2).
      exists (l1 ++ l2). split; [by rewrite E2, E1, app_assoc |].
      split; [rewrite length_app; specialize (Bok _ _ _ eq_refl); lia |].
      split.
      * apply StronglySorted_app_2; [| by eapply same_step_sorted | done].
        intros x1 x2 Hx1 Hx2. unfold step_le.
        rewrite Forall_forall in F1. rewrite Forall_forall in F2.
        rewrite Forall_forall in Hlt.
        rewrite (F1 x1 Hx1). specialize (Hlt _ (F2 x2 Hx2)). lia.
      * apply Forall_app. split.
        -- eapply Forall_impl; [exact F1 |]. intros x <-.
           apply list_elem_of_here.
        -- eapply Forall_impl; [exact F2 |]. intros x Hx.
           by apply list_elem_of_further.
    + exists l1. split; [done |]. split; [lia |].
      split; [by eapply same_step_sorted |].
      eapply Forall_impl; [exact F1 |]. intros x <-. apply list_elem_of_here.
Qed.

Lemma all_steps_sorted :
  StronglySorted (λ a b, step_index a < step_index b) all_steps.
Proof. unfold all_steps. repeat constructor; simpl; lia. Qed.

(** X2.  Whatever the backend does, the requests of a pass are sent in
    the order of the steps: no request of an earlier step follows a
    request of a later one. *)
Theorem sync_v400_requests_in_step_order c s :
  ∃ l, calls (sync_v400 sub co c s).2 = calls s ++ l
       ∧ StronglySorted step_le l.
Proof.
  rewrite sync_v400_run_from.
  destruct (run_from_trace c all_steps no_outputs false s all_steps_sorted)
    as (l & E & _ & S & _).
  by exists l.
Qed.

(** X3.  Whatever the backend does, a pass sends at most eight requests,
    the draw from the random source included: there is no retry inside
    a pass. *)
Theorem sync_v400_sends_at_most_eight c s :
  ∃ l, calls (sync_v400 sub co c s).2 = calls s ++ l ∧ length l ≤ 8.
Proof.
  rewrite sync_v400_run_from.
  destruct (run_from_trace c all_steps no_outputs false s all_steps_sorted)
    as (l & E & B & _ & _).
  by exists l.
Qed.

(** The requests of the steps, one by one. *)
Lemma SyncRoute_calls c s :
  calls (SyncRoute sub co c s).2
  = calls s ++ [RouteGetOrCreate (routesub_DefaultRoute sub (heap s !! c))].
Proof. unfold_steps. by crunch. Qed.

Lemma SyncService_calls c s :
  calls (SyncService sub co c s).2
  = calls s ++ [ServiceApply (servicesub_DefaultService sub (heap s !! c))].
Proof. unfold_steps. by crunch. Qed.

Lemma SyncConfigMap_calls c rt s :
  calls (SyncConfigMap sub co c rt s).2
  = calls s
    ++ [ConfigMapApply (configmapsub_DefaultConfigMap sub (heap s !! c) rt)].
Proof. unfold_steps. by crunch. Qed.

Lemma SyncSecret_ok_calls c s sec changed s' :
  SyncSecret sub co c s = (Returns (sec, changed, None), s') →
  calls s' = calls s ++ [SecretGet (controller_TargetNamespace sub)
                                   (secretsub_Stub_Name sub)].
Proof. unfold_steps. intros H. by crunch. Qed.

Lemma SyncOAuthClient_ok_calls c sec rt s oa changed s' :
  SyncOAuthClient sub co c sec rt s = (Returns (oa, changed, None), s') →
  ∃ client,
    calls s' =
    calls s
    ++ [OAuthClientGet (oauthsub_Stub_Name sub);
        OAuthClientApply
          (oauthsub_RegisterConsoleToOAuthClient sub client rt
             (secretsub_GetSecretString sub sec))].
Proof.
  unfold_steps. intros H. crunch. eexists. by rewrite <- !app_assoc.
Qed.

Lemma SyncDeployment_ok_calls c cm sec s dep changed s' :
  SyncDeployment sub co c cm sec s = (Returns (dep, changed, None), s') →
  is_Some (heap s !! c)
  ∧ ∃ tail,
      calls s' =
      calls s
      ++ DeploymentGet (controller_TargetNamespace sub)
                       (deploymentsub_Stub_Name sub) :: tail
      ∧ (tail = [] ∨ ∃ d g, tail = [DeploymentApply d g true]).
Proof.
  unfold_steps. intros H. crunch; (split; [done |]).
  - eexists. split; [by rewrite <- !app_assoc | eauto].
  - exists []. split; [done | by left].
Qed.

Lemma SyncRoute_ok_route c s rt isNew s' :
  SyncRoute sub co c s = (Returns (rt, isNew, None), s') →
  ∃ r, rt = Some r ∧ routev1.Host (routev1.Spec r) ≠ EmptyString.
Proof.
  unfold_steps. intros H. crunch. eexists. split; [done |].
  intros Hhost. by rewrite Hhost in *.
Qed.

Lemma SyncSecret_ok_string c s sec changed s' :
  SyncSecret sub co c s = (Returns (sec, changed, None), s') →
  secretsub_GetSecretString sub sec ≠ EmptyString.
Proof.
  unfold_steps. intros H. crunch.
  match goal with H : _ || _ = false |- _ =>
    apply orb_false_elim in H as [_ H]; by apply bool_decide_eq_false in H
  end.
Qed.

Lemma step_heap {A} P (m : M W A) s : frames P m → heap (m s).2 = heap s.
Proof. intros Hm. apply (Hm s). Qed.

(** X12.  A pass that returns a nil error has sent, in this order, the
    route get-or-create, the service apply, the config map apply, the
    secret get, the oauth-client get and apply and the deployment get,
    followed by at most one deployment apply with a forced rollout, and
    nothing else: no secret was generated or applied.  The config map
    and the registration were built from a route that has a host, and
    the registration from a secret string that is not empty. *)
Theorem sync_v400_ok_trace c s0 changed s' :
  sync_v400 sub co c s0 = (Returns (c, changed, None), s') →
  ∃ r sec client tail,
    routev1.Host (routev1.Spec r) ≠ EmptyString
    ∧ secretsub_GetSecretString sub sec ≠ EmptyString
    ∧ calls s' =
      calls s0
      ++ [RouteGetOrCreate (routesub_DefaultRoute sub (heap s0 !! c));
          ServiceApply (servicesub_DefaultService sub (heap s0 !! c));
          ConfigMapApply
            (configmapsub_DefaultConfigMap sub (heap s0 !! c) (Some r));
          SecretGet (controller_TargetNamespace sub) (secretsub_Stub_Name sub);
          OAuthClientGet (oauthsub_Stub_Name sub);
          OAuthClientApply
            (oauthsub_RegisterConsoleToOAuthClient sub client (Some r)
               (secretsub_GetSecretString sub sec));
          DeploymentGet (controller_TargetNamespace sub)
                        (deploymentsub_Stub_Name sub)]
      ++ tail
    ∧ (tail = [] ∨ ∃ d g, tail = [DeploymentApply d g true]).
Proof.
  intros H.
  apply sync_v400_ok_steps in H
    as (rt & ch1 & s1 & svc & ch2 & s2 & cm & ch3 & s3 & sec & s4
        & oa & ch5 & s5 & dep & ch6 & H1 & H2 & H3 & H4 & H5 & H6 & _).
  pose proof (SyncRoute_calls c s0) as C1.
  pose proof (step_heap _ _ s0 (SyncRoute_frames sub co c)) as E1.
  rewrite H1 in C1, E1. simpl in C1, E1.
  pose proof (SyncService_calls c s1) as C2.
  pose proof (step_heap _ _ s1 (SyncService_frames sub co c)) as E2.
  rewrite H2 in C2, E2. simpl in C2, E2.
  pose proof (SyncConfigMap_calls c rt s2) as C3.
  rewrite H3 in C3. simpl in C3.
  pose proof (SyncSecret_ok_calls _ _ _ _ _ H4) as C4.
  destruct (SyncOAuthClient_ok_calls _ _ _ _ _ _ _ H5) as (client & C5).
  destruct (SyncDeployment_ok_calls _ _ _ _ _ _ _ H6)
    as (_ & tail & C6 & Htail).
  destruct (SyncRoute_ok_route _ _ _ _ _ H1) as (r & -> & Hhost).
  pose proof (SyncSecret_ok_string _ _ _ _ _ H4) as Hsec.
  exists r, sec, client, tail. repeat (split; [done |]). split; [| done].
  rewrite C6, C5, C4, C3, C2, C1, E2, E1. by rewrite <- !app_assoc.
Qed.

(** X10.  When [consoleConfig] points to no [Console], the deployment
    step panics before it sends a request, and no pass returns a nil
    error: it ends with the error of an earlier step or panics. *)
Theorem sync_v400_nil_consoleConfig c s :
  heap s !! c = None →
  (∀ cm sec,
     SyncDeployment sub co c cm sec s =
       (Panics
          "runtime error: invalid memory address or nil pointer dereference",
        s))
  ∧ ∀ c' changed s', sync_v400 sub co c s ≠ (Returns (c', changed, None), s').
Proof.
  intros Hc. split.
  - intros cm sec. unfold_steps. by rewrite Hc.
  - intros c' changed s' H.
    apply sync_v400_ok_steps in H
      as (rt & ch1 & s1 & svc & ch2 & s2 & cm & ch3 & s3 & sec & s4
          & oa & ch5 & s5 & dep & ch6 & H1 & H2 & H3 & H4 & H5 & H6 & _).
    destruct (SyncDeployment_ok_calls _ _ _ _ _ _ _ H6) as ([x Hx] & _).
    pose proof (step_heap _ _ s (SyncRoute_frames sub co c)) as E1.
    pose proof (step_heap _ _ s1 (SyncService_frames sub co c)) as E2.
    pose proof (step_heap _ _ s2 (SyncConfigMap_frames sub co c rt)) as E3.
    pose proof (step_heap _ _ s3 (SyncSecret_frames sub co c)) as E4.
    pose proof (step_heap _ _ s4 (SyncOAuthClient_frames sub co c sec rt))
      as E5.
    rewrite H1 in E1. rewrite H2 in E2. rewrite H3 in E3. rewrite H4 in E4.
    rewrite H5 in E5. simpl in *. congruence.
Qed.

(** X13.  When the route get-or-create returns a nil route together with
    a nil error, the route step panics on [rt.Spec.Host], and the pass
    with it, after the request has been sent. *)
Theorem SyncRoute_nil_route_panics c s isNew w1 :
  GetOrCreate (routeClient co) (routesub_DefaultRoute sub (heap s !! c))
              (backend s) = ((None, isNew, None), w1) →
  SyncRoute sub co c s =
    (Panics "runtime error: invalid memory address or nil pointer dereference",
     mkSt (heap s) w1
          (calls s
           ++ [RouteGetOrCreate (routesub_DefaultRoute sub (heap s !! c))]))
  ∧ sync_v400 sub co c s =
    (Panics "runtime error: invalid memory address or nil pointer dereference",
     mkSt (heap s) w1
          (calls s
           ++ [RouteGetOrCreate (routesub_DefaultRoute sub (heap s !! c))])).
Proof.
  intros Hget.
  assert (SyncRoute sub co c s =
    (Panics "runtime error: invalid memory address or nil pointer dereference",
     mkSt (heap s) w1
          (calls s
           ++ [RouteGetOrCreate (routesub_DefaultRoute sub (heap s !! c))])))
    as Hroute.
  { unfold_steps. by rewrite Hget. }
  split; [done |]. unfold sync_v400, mbind, M_bind. by rewrite Hroute.
Qed.

End PassResults.

(** ** Further properties of the status *)

Section StatusResults.
Context {W : Type} (sub : Subresources).
Implicit Types (s : St W).

(** X14.  With a route that is not nil, the body of [setStatus] ends
    with [DefaultHostName] equal to the host of the route, on both
    branches of the test on the host, and with [OAuthSecret] equal to
    "valid" or "mismatch" as [secretAndOauthMatch] answers: the two
    fields it assigns take nothing from the status passed in, nor from
    the service, the config map or the deployment. *)
Theorem setStatus_body_fields cs svc r cm dep oa sec s :
  ∃ cs',
    setStatus_body sub cs svc (Some r) cm dep oa sec s = (Returns cs', s)
    ∧ v1alpha1.DefaultHostName cs' = routev1.Host (routev1.Spec r)
    ∧ v1alpha1.OAuthSecret cs'
      = if secretAndOauthMatch sub sec oa then "valid" else "mismatch".
Proof.
  unfold setStatus_body, mbind, M_bind, deref, mret, M_ret.
  cbn beta iota zeta. eexists. split; [reflexivity |].
  split.
  - case_bool_decide as Hhost; destruct (secretAndOauthMatch sub sec oa);
      cbn; try reflexivity; by rewrite Hhost.
  - by destruct (bool_decide _), (secretAndOauthMatch sub sec oa).
Qed.

End StatusResults.

(** ** The further properties on the in-memory backend *)

Section MoreRuns.
Import Fake.

Lemma SyncRoute_ok_has_host_witness :
  ∃ r, Some theRoute = Some r
       ∧ routev1.Host (routev1.Spec r) ≠ EmptyString
       ∧ GetOrCreate (routeClient co)
           (routesub_DefaultRoute sub (heap (start converged) !! consoleConfig))
           (backend (start converged))
         = ((Some r, false, None),
            backend (SyncRoute sub co consoleConfig (start converged)).2).
Proof.
  apply (SyncRoute_ok_has_host sub co consoleConfig (start converged)
           (Some theRoute) false
           (SyncRoute sub co consoleConfig (start converged)).2).
  vm_compute. reflexivity.
Defined.

Lemma SyncSecret_ok_inv_witness :
  false = false
  ∧ secretsub_GetSecretString sub (Some theSecret) ≠ EmptyString
  ∧ calls (SyncSecret sub co consoleConfig (start converged)).2
    = calls (start converged)
      ++ [SecretGet (controller_TargetNamespace sub) (secretsub_Stub_Name sub)].
Proof.
  apply (SyncSecret_ok_inv sub co consoleConfig (start converged)
           (Some theSecret) false
           (SyncSecret sub co consoleConfig (start converged)).2).
  vm_compute. reflexivity.
Defined.


Lemma SyncSecret_not_found_creates_witness :
  ∃ st,
    SyncSecret sub co consoleConfig (start withoutSecret) =
      (Returns (None, true,
                fmt_Errorf
                  "secret not found, creating new secret, create error = "
                  None),
       st).
Proof.
  eexists.
  apply (SyncSecret_not_found_creates sub co consoleConfig
           (start withoutSecret) (Some emptySecret) (notFound "secret")
           withoutSecret "k"
           (Random256BitsString co withoutSecret).2
           (Some theSecret) true None
           (ApplySecret (secretsClient co) theSecret
              (Random256BitsString co withoutSecret).2).2);
    vm_compute; reflexivity.
Defined.

Lemma SyncDeployment_not_found_creates_witness :
  ∃ st,
    SyncDeployment sub co consoleConfig (Some theConfigMap) (Some theSecret)
      (start withoutSecret) =
      (Returns (None, true,
                fmt_Errorf
                  "deployment not found, creating new deployment, create error = "
                  None),
       st).
Proof.
  eexists.
  apply (SyncDeployment_not_found_creates sub co consoleConfig
           (Some theConfigMap) (Some theSecret) (start withoutSecret)
           console (Some emptyDeployment) (notFound "deployment")
           withoutSecret (Some theDeployment) true None
           (ApplyDeployment (deploymentClient co) theDeployment 0 true
              withoutSecret).2);
    vm_compute; reflexivity.
Defined.

Lemma SyncOAuthClient_reregisters_witness :
  ∃ x changed err w2,
    ApplyOAuth (oauthClient co)
      (oauthsub_RegisterConsoleToOAuthClient sub (Some theOAuthClient)
         (Some theRoute)
         (secretsub_GetSecretString sub (Some theSecret))) converged
      = ((x, changed, err), w2)
    ∧ SyncOAuthClient sub co consoleConfig (Some theSecret) (Some theRoute)
        (start converged) =
      (Returns (if not_nil err then (None, false, err)
                else (x, changed, None)),
       mkSt (heap (start converged)) w2
            (calls (start converged)
             ++ [OAuthClientGet (oauthsub_Stub_Name sub);
                 OAuthClientApply
                   (oauthsub_RegisterConsoleToOAuthClient sub
                      (Some theOAuthClient) (Some theRoute)
                      (secretsub_GetSecretString sub (Some theSecret)))])).
Proof.
  apply (SyncOAuthClient_reregisters sub co consoleConfig (Some theSecret)
           (Some theRoute) (start converged) (Some theOAuthClient) converged).
  reflexivity.
Defined.

(** The stale deployment is found and updated by one apply. *)
Lemma SyncDeployment_ok_inv_witness :
  ∃ console existing w1,
    heap (start staleDeployment) !! consoleConfig = Some console
    ∧ Deployments_Get (deploymentClient co) (controller_TargetNamespace sub)
        (deploymentsub_Stub_Name sub) (backend (start staleDeployment))
      = ((existing, None), w1)
    ∧ deploymentsub_ResourceVersionsChanged sub existing
        (Some theConfigMap) (Some theSecret) = true.
Proof.
  destruct (SyncDeployment_ok_inv sub co consoleConfig (Some theConfigMap)
              (Some theSecret) (start staleDeployment) (Some theDeployment)
              true
              (SyncDeployment sub co consoleConfig (Some theConfigMap)
                 (Some theSecret) (start staleDeployment)).2)
    as (console & existing & w1 & Hc & Hget & Hcase).
  - vm_compute. reflexivity.
  - exists console, existing, w1. split; [exact Hc |]. split; [exact Hget |].
    destruct Hcase as [(_ & _ & Hch & _) | (Hchanged & _)];
      [discriminate Hch | exact Hchanged].
Defined.

Lemma sync_v400_nil_consoleConfig_witness :
  (∀ cm sec,
     SyncDeployment sub co consoleConfig cm sec (startNil converged) =
       (Panics
          "runtime error: invalid memory address or nil pointer dereference",
        startNil converged))
  ∧ ∀ c' changed s',
      sync_v400 sub co consoleConfig (startNil converged)
      ≠ (Returns (c', changed, None), s').
Proof.
  apply (sync_v400_nil_consoleConfig sub co consoleConfig (startNil converged)).
  reflexivity.
Defined.

(** On the converged backend with a nil [consoleConfig] the five earlier
    steps send their requests and the pass panics in the deployment
    step. *)
Example sync_v400_nil_consoleConfig_run :
  sync_v400 sub co consoleConfig (startNil converged) =
    (Panics "runtime error: invalid memory address or nil pointer dereference",
     mkSt ∅ converged
          [RouteGetOrCreate (routesub_DefaultRoute sub None);
           ServiceApply theService;
           ConfigMapApply theConfigMap;
           SecretGet "openshift-console" "console-oauth-config";
           OAuthClientGet "console-oauth-client";
           OAuthClientApply (Some theOAuthClient)]).
Proof. vm_compute. reflexivity. Qed.

(** A pass over the stale deployment: eight requests, the most a pass
    sends. *)
Lemma sync_v400_ok_trace_witness :
  ∃ r sec client tail,
    routev1.Host (routev1.Spec r) ≠ EmptyString
    ∧ secretsub_GetSecretString sub sec ≠ EmptyString
    ∧ calls (sync_v400 sub co consoleConfig (start staleDeployment)).2 =
      calls (start staleDeployment)
      ++ [RouteGetOrCreate
            (routesub_DefaultRoute sub
               (heap (start staleDeployment) !! consoleConfig));
          ServiceApply
            (servicesub_DefaultService sub
               (heap (start staleDeployment) !! consoleConfig));
          ConfigMapApply
            (configmapsub_DefaultConfigMap sub
               (heap (start staleDeployment) !! consoleConfig) (Some r));
          SecretGet (controller_TargetNamespace sub) (secretsub_Stub_Name sub);
          OAuthClientGet (oauthsub_Stub_Name sub);
          OAuthClientApply
            (oauthsub_RegisterConsoleToOAuthClient sub client (Some r)
               (secretsub_GetSecretString sub sec));
          DeploymentGet (controller_TargetNamespace sub)
                        (deploymentsub_Stub_Name sub)]
      ++ tail
    ∧ (tail = [] ∨ ∃ d g, tail = [DeploymentApply d g true]).
Proof.
  apply (sync_v400_ok_trace sub co consoleConfig (start staleDeployment)
           true).
  vm_compute. reflexivity.
Defined.

Example sync_v400_eight_requests :
  length (calls (sync_v400 sub co consoleConfig (start staleDeployment)).2)
  = 8.
Proof. vm_compute. reflexivity. Qed.

Lemma SyncRoute_nil_route_panics_witness :
  SyncRoute sub coBrokenRoute consoleConfig (start converged) =
    (Panics "runtime error: invalid memory address or nil pointer dereference",
     mkSt (heap (start converged)) converged
          (calls (start converged)
           ++ [RouteGetOrCreate
                 (routesub_DefaultRoute sub
                    (heap (start converged) !! consoleConfig))]))
  ∧ sync_v400 sub coBrokenRoute consoleConfig (start converged) =
    (Panics "runtime error: invalid memory address or nil pointer dereference",
     mkSt (heap (start converged)) converged
          (calls (start converged)
           ++ [RouteGetOrCreate
                 (routesub_DefaultRoute sub
                    (heap (start converged) !! consoleConfig))])).
Proof.
  apply (SyncRoute_nil_route_panics sub coBrokenRoute consoleConfig
           (start converged) false converged).
  reflexivity.
Defined.

(** C3.  The backend holds a secret whose string is "k", and the get
    times out: it returns the empty object with an error that is not a
    not-found error.  [SyncSecret] tests the emptiness of the returned
    object before it tests the error, so it takes the create path: it
    draws a random string and applies a new default secret, which
    replaces the stored one, and it returns a true changed flag with
    the terminating error of that path. *)
Theorem SyncSecret_overwrites_on_failed_get :
  secret secretGetTimesOut = Some theSecret
  ∧ secretsub_GetSecretString sub (secret secretGetTimesOut) = "k"
  ∧ Secrets_Get (secretsClient co) (controller_TargetNamespace sub)
      (secretsub_Stub_Name sub) secretGetTimesOut
    = ((Some emptySecret, Some timedOut), secretGetTimesOut)
  ∧ IsNotFound (Some timedOut) = false
  ∧ (SyncSecret sub co consoleConfig (start secretGetTimesOut)).1
    = Returns
        (None, true,
         Some (errorString
                 "secret not found, creating new secret, create error = <nil>"))
  ∧ calls (SyncSecret sub co consoleConfig (start secretGetTimesOut)).2
    = [SecretGet "openshift-console" "console-oauth-config";
       RandomSecretString;
       SecretApply (secretsub_DefaultSecret sub (Some console) "kk")]
  ∧ secret (backend (SyncSecret sub co consoleConfig
                       (start secretGetTimesOut)).2)
    = Some (secretsub_DefaultSecret sub (Some console) "kk")
  ∧ secretsub_DefaultSecret sub (Some console) "kk" ≠ theSecret.
Proof. vm_compute. repeat split; try reflexivity. discriminate. Qed.

End MoreRuns.
